(** * Living Portrait: scene persistence and coordinate editing

    A shallow embedding of the state handlers of [living-portrait.jsx]
    (the [LivingPortrait] component): the editing handlers
    ([handleImageClick], [handleSocketMouseDown] with its [handleMove] and
    [handleUp] listeners, [handleKeyDown]), the slot handlers ([saveSlot],
    [loadSlot]) over the two IndexedDB object stores, and the profile
    export and import ([exportProfiles], [importProfiles]).

    JavaScript values are modelled as a tree of dynamically typed values,
    numbers as IEEE 754 binary64 values, React state as a record that each
    handler transforms, and a rejected promise or a thrown exception as an
    explicit [Throws] outcome. The handlers never change an array or an
    object in place (they build new ones with spread, [map] and [filter]),
    so values carry no identity. *)

From Stdlib Require Import ZArith String Ascii List Bool.
From Stdlib Require Import Floats.SpecFloat.
From stdpp Require Import gmap strings pretty list.

Open Scope string_scope.
Open Scope list_scope.

(** ** Numbers: IEEE 754 binary64 *)

Module Num.

Definition number := spec_float.

Definition prec : Z := 53.
Definition emax : Z := 1024.

Definition of_Z (z : Z) : number := binary_normalize prec emax z 0 false.
Definition of_nat (n : nat) : number := of_Z (Z.of_nat n).

Definition zero : number := S754_zero false.
Definition one : number := of_Z 1.

(** [a - b] and [a / b] on numbers, rounding to nearest even. *)
Definition sub (a b : number) : number := SFsub prec emax a b.
Definition div (a b : number) : number := SFdiv prec emax a b.

Definition leb (a b : number) : bool := SFleb a b.
Definition ltb (a b : number) : bool := SFltb a b.

Definition is_nan (a : number) : bool :=
  match a with S754_nan => true | _ => false end.

(** [Math.max(a, b)]: NaN if either argument is NaN; of two zeros, +0 is
    the larger one. *)
Definition Math_max (a b : number) : number :=
  match SFcompare a b with
  | None => S754_nan
  | Some Lt => b
  | Some Gt => a
  | Some Eq =>
      match a, b with
      | S754_zero true, S754_zero false => b
      | _, _ => a
      end
  end.

(** [Math.min(a, b)]: NaN if either argument is NaN; of two zeros, -0 is
    the smaller one. *)
Definition Math_min (a b : number) : number :=
  match SFcompare a b with
  | None => S754_nan
  | Some Lt => a
  | Some Gt => b
  | Some Eq =>
      match a, b with
      | S754_zero false, S754_zero true => b
      | _, _ => a
      end
  end.

(** The unit interval, as a decidable predicate; NaN is outside. *)
Definition in_unit (a : number) : bool := leb zero a && leb a one.

End Num.

Export Num.

(** ** JavaScript values *)

Unset Elimination Schemes.

(** The values the component stores in its state and in IndexedDB: what
    [JSON.parse] can return, plus [undefined]. An object lists its own
    properties in the order [Object.keys] reports them. *)
Inductive jsval : Type :=
| JUndefined
| JNull
| JBool (b : bool)
| JNum (n : number)
| JStr (s : string)
| JArr (items : list jsval)
| JObj (props : list (string * jsval)).

Set Elimination Schemes.

Section JsvalInduction.

Variable P : jsval -> Prop.
Hypothesis Hundef : P JUndefined.
Hypothesis Hnull : P JNull.
Hypothesis Hbool : forall b, P (JBool b).
Hypothesis Hnum : forall n, P (JNum n).
Hypothesis Hstr : forall s, P (JStr s).
Hypothesis Harr : forall items, Forall P items -> P (JArr items).
Hypothesis Hobj :
  forall props, Forall (fun kv => P (snd kv)) props -> P (JObj props).

Fixpoint jsval_ind (v : jsval) : P v :=
  match v with
  | JUndefined => Hundef
  | JNull => Hnull
  | JBool b => Hbool b
  | JNum n => Hnum n
  | JStr s => Hstr s
  | JArr items =>
      Harr items
        ((fix items_ind (l : list jsval) : Forall P l :=
            match l with
            | [] => List.Forall_nil P
            | x :: l' => List.Forall_cons P x l' (jsval_ind x) (items_ind l')
            end) items)
  | JObj props =>
      Hobj props
        ((fix props_ind (l : list (string * jsval))
            : Forall (fun kv => P (snd kv)) l :=
            match l with
            | [] => List.Forall_nil _
            | kv :: l' =>
                List.Forall_cons (fun kv => P (snd kv)) kv l'
                  (jsval_ind (snd kv)) (props_ind l')
            end) props)
  end.

End JsvalInduction.

(** A thrown exception or a rejected promise. *)
Inductive js_error : Type :=
| TypeError
| SyntaxError
| DataError
| StoreError.

Inductive outcome (A : Type) : Type :=
| Returns (a : A)
| Throws (e : js_error).

Arguments Returns {A} a.
Arguments Throws {A} e.

#[global] Instance outcome_ret : MRet outcome := fun A a => Returns a.
#[global] Instance outcome_bind : MBind outcome := fun A B f m =>
  match m with
  | Returns a => f a
  | Throws e => Throws e
  end.

(** [try { body } catch (e) { handler }] *)
Definition try_catch {A} (body : outcome A) (handler : js_error -> A) : A :=
  match body with
  | Returns a => a
  | Throws e => handler e
  end.

(** Truthiness: [undefined], [null], [false], [NaN], [+0], [-0] and the
    empty string are falsy, every other value is truthy. *)
Definition truthy (v : jsval) : bool :=
  match v with
  | JUndefined | JNull => false
  | JBool b => b
  | JNum S754_nan | JNum (S754_zero _) => false
  | JNum _ => true
  | JStr s => negb (String.eqb s "")
  | JArr _ | JObj _ => true
  end.

(** [a || b] *)
Definition js_or (a b : jsval) : jsval := if truthy a then a else b.

(** *** Property keys *)

Definition digit_of (c : ascii) : option N :=
  let n := N_of_ascii c in
  if (48 <=? n)%N && (n <=? 57)%N then Some (n - 48)%N else None.

Fixpoint digits_value (acc : N) (s : string) : option N :=
  match s with
  | EmptyString => Some acc
  | String c s' =>
      match digit_of c with
      | Some d => digits_value (10 * acc + d)%N s'
      | None => None
      end
  end.

(** A property key is an array index when it is the canonical decimal
    numeral of an integer below [2^32 - 1]. *)
Definition array_index (k : string) : option N :=
  match k with
  | EmptyString => None
  | _ =>
      match digits_value 0 k with
      | Some n =>
          if String.eqb (pretty n) k && (n <? 4294967295)%N then Some n
          else None
      | None => None
      end
  end.

Fixpoint has_key (o : list (string * jsval)) (k : string) : bool :=
  match o with
  | [] => false
  | (k', _) :: o' => String.eqb k' k || has_key o' k
  end.

Fixpoint assoc (o : list (string * jsval)) (k : string) : option jsval :=
  match o with
  | [] => None
  | (k', v) :: o' => if String.eqb k' k then Some v else assoc o' k
  end.

Fixpoint replace_prop (o : list (string * jsval)) (k : string) (v : jsval)
  : list (string * jsval) :=
  match o with
  | [] => []
  | (k', v') :: o' =>
      if String.eqb k' k then (k', v) :: o' else (k', v') :: replace_prop o' k v
  end.

(** A new index key goes after the smaller index keys and before everything
    else. *)
Fixpoint insert_index (o : list (string * jsval)) (n : N) (k : string)
  (v : jsval) : list (string * jsval) :=
  match o with
  | [] => [(k, v)]
  | (k', v') :: o' =>
      match array_index k' with
      | Some m =>
          if (m <? n)%N then (k', v') :: insert_index o' n k v
          else (k, v) :: o
      | None => (k, v) :: o
      end
  end.

(** [o[k] = v] on an ordinary object: an existing property keeps its place;
    a new one is listed among the index keys in ascending order when [k] is
    an array index, and last otherwise. *)
Definition set_prop (o : list (string * jsval)) (k : string) (v : jsval)
  : list (string * jsval) :=
  if has_key o k then replace_prop o k v
  else
    match array_index k with
    | Some n => insert_index o n k v
    | None => o ++ [(k, v)]
    end.

Definition chars (s : string) : list jsval :=
  map (fun c => JStr (String c EmptyString)) (list_ascii_of_string s).

Definition nth_item (l : list jsval) (i : N) : jsval :=
  nth (N.to_nat i) l JUndefined.

(** [v[k]] for the property names this program reads (slot numbers,
    [imageKey], [eyeSockets], [locked]): own properties, the elements of an
    array or string, and [length]. None of these names is inherited from a
    prototype. Reading a property of [undefined] or [null] throws. *)
Definition get_prop (v : jsval) (k : string) : outcome jsval :=
  match v with
  | JUndefined | JNull => Throws TypeError
  | JBool _ | JNum _ => Returns JUndefined
  | JStr s =>
      if String.eqb k "length" then Returns (JNum (of_nat (String.length s)))
      else
        match array_index k with
        | Some i => Returns (nth_item (chars s) i)
        | None => Returns JUndefined
        end
  | JArr items =>
      if String.eqb k "length" then Returns (JNum (of_nat (length items)))
      else
        match array_index k with
        | Some i => Returns (nth_item items i)
        | None => Returns JUndefined
        end
  | JObj props =>
      match assoc props k with
      | Some x => Returns x
      | None => Returns JUndefined
      end
  end.

Definition indexed (l : list jsval) : list (string * jsval) :=
  imap (fun i x => (pretty i, x)) l.

(** The own enumerable properties copied by [{ ...v }]. *)
Definition object_spread (v : jsval) : list (string * jsval) :=
  match v with
  | JObj props => props
  | JArr items => indexed items
  | JStr s => indexed (chars s)
  | _ => []
  end.

(** The elements produced by [[...v]]: only arrays and strings are
    iterable. *)
Definition array_spread (v : jsval) : outcome (list jsval) :=
  match v with
  | JArr items => Returns items
  | JStr s => Returns (chars s)
  | _ => Throws TypeError
  end.

(** ** JSON documents *)

Unset Elimination Schemes.

(** The syntax tree of a JSON text. A number literal stands for the number
    it reads as; the members of an object are in the order of the text. *)
Inductive json : Type :=
| JsonNull
| JsonBool (b : bool)
| JsonNum (n : number)
| JsonStr (s : string)
| JsonArr (elements : list json)
| JsonObj (members : list (string * json)).

Set Elimination Schemes.

(** The text handed to [JSON.parse], as far as [JSON.parse] can tell: the
    text of a JSON document, or any other text. *)
Inductive file_text : Type :=
| JsonText (doc : json)
| NotJsonText.

(** [JSON.stringify(v)]: [undefined] has no JSON text; inside an array it is
    written as [null], and an object property holding it is left out. NaN
    and the infinities are written as [null], and -0 as [0]. *)
Fixpoint JSON_stringify (v : jsval) : option json :=
  match v with
  | JUndefined => None
  | JNull => Some JsonNull
  | JBool b => Some (JsonBool b)
  | JNum (S754_finite s m e) => Some (JsonNum (S754_finite s m e))
  | JNum (S754_zero _) => Some (JsonNum zero)
  | JNum _ => Some JsonNull
  | JStr s => Some (JsonStr s)
  | JArr items =>
      Some (JsonArr
              (map (fun x => match JSON_stringify x with
                             | Some j => j
                             | None => JsonNull
                             end) items))
  | JObj props =>
      Some (JsonObj
              (flat_map (fun kv => match JSON_stringify (snd kv) with
                                   | Some j => [(fst kv, j)]
                                   | None => []
                                   end) props))
  end.

(** The object that defining the given properties one after the other
    creates. *)
Definition build_object (entries : list (string * jsval))
  : list (string * jsval) :=
  fold_left (fun o kv => set_prop o (fst kv) (snd kv)) entries [].

(** The value [JSON.parse] builds from a document. *)
Fixpoint json_value (j : json) : jsval :=
  match j with
  | JsonNull => JNull
  | JsonBool b => JBool b
  | JsonNum n => JNum n
  | JsonStr s => JStr s
  | JsonArr elements => JArr (map json_value elements)
  | JsonObj members =>
      JObj (build_object (map (fun kj => (fst kj, json_value (snd kj))) members))
  end.

(** [JSON.parse(text)] throws a [SyntaxError] on a text that is not JSON. *)
Definition JSON_parse (text : file_text) : outcome jsval :=
  match text with
  | JsonText doc => Returns (json_value doc)
  | NotJsonText => Throws SyntaxError
  end.

(** The text of [JSON.stringify(v, null, 2)] when written to a file;
    [undefined] is written as the word [undefined], which is not JSON. *)
Definition stringify_text (v : jsval) : file_text :=
  match JSON_stringify v with
  | Some doc => JsonText doc
  | None => NotJsonText
  end.

(** ** The IndexedDB object stores *)

Inductive store_name : Type := IMG_STORE | PROFILE_STORE.

(** The database [LivingPortraitDB]: the object stores [images] and
    [profiles], both keyed by strings. *)
Record DB : Type := mkDB {
  images : gmap string jsval;
  profiles_store : gmap string jsval
}.

Definition read_store (store : store_name) (d : DB) : gmap string jsval :=
  match store with
  | IMG_STORE => images d
  | PROFILE_STORE => profiles_store d
  end.

Definition write_store (store : store_name) (m : gmap string jsval) (d : DB)
  : DB :=
  match store with
  | IMG_STORE => mkDB m (profiles_store d)
  | PROFILE_STORE => mkDB (images d) m
  end.

(** Whether the storage beneath a request completes it or fails it (the
    database cannot be opened, or the request errors). A request that never
    settles would leave its handler suspended at the [await]; that is not
    modelled. *)
Inductive io_result : Type := IoDone | IoFails.

(** [dbPut(store, key, value)]: resolves once the value is stored; a failed
    transaction stores nothing and rejects. *)
Definition dbPut (io : io_result) (store : store_name) (key : string)
  (value : jsval) (d : DB) : outcome DB :=
  match io with
  | IoDone => Returns (write_store store (<[key := value]> (read_store store d)) d)
  | IoFails => Throws StoreError
  end.

(** The values IndexedDB accepts as a key among those of [jsval]. *)
Fixpoint valid_key (k : jsval) : bool :=
  match k with
  | JNum n => negb (is_nan n)
  | JStr _ => true
  | JArr items => forallb valid_key items
  | _ => false
  end.

(** [dbGet(store, key)]: resolves with the stored value, or [undefined] when
    there is none; rejects on an invalid key ([DataError]) and on a failed
    request. Only string keys are ever written. *)
Definition dbGet (io : io_result) (store : store_name) (key : jsval) (d : DB)
  : outcome jsval :=
  match io with
  | IoFails => Throws StoreError
  | IoDone =>
      if valid_key key then
        match key with
        | JStr k =>
            match read_store store d !! k with
            | Some v => Returns v
            | None => Returns JUndefined
            end
        | _ => Returns JUndefined
        end
      else Throws DataError
  end.

(** ** The component's state *)

Record State : Type := mkState {
  imageData : jsval;
  eyeSockets : jsval;
  locked : jsval;
  glowIntensity : number;
  profiles : jsval;
  activeSlot : option N;
  statusMsg : string;
  draggingIdx : option nat;
  hoverSocket : option nat
}.

(** [useState] initial values. *)
Definition initial_state : State :=
  mkState JNull (JArr []) (JBool false) zero (JObj []) None "" None None.

Definition setImageData (v : jsval) (s : State) : State :=
  mkState v (eyeSockets s) (locked s) (glowIntensity s) (profiles s)
    (activeSlot s) (statusMsg s) (draggingIdx s) (hoverSocket s).
Definition setEyeSockets (v : jsval) (s : State) : State :=
  mkState (imageData s) v (locked s) (glowIntensity s) (profiles s)
    (activeSlot s) (statusMsg s) (draggingIdx s) (hoverSocket s).
Definition setLocked (v : jsval) (s : State) : State :=
  mkState (imageData s) (eyeSockets s) v (glowIntensity s) (profiles s)
    (activeSlot s) (statusMsg s) (draggingIdx s) (hoverSocket s).
Definition setGlowIntensity (g : number) (s : State) : State :=
  mkState (imageData s) (eyeSockets s) (locked s) g (profiles s)
    (activeSlot s) (statusMsg s) (draggingIdx s) (hoverSocket s).
Definition setProfiles (v : jsval) (s : State) : State :=
  mkState (imageData s) (eyeSockets s) (locked s) (glowIntensity s) v
    (activeSlot s) (statusMsg s) (draggingIdx s) (hoverSocket s).
Definition setActiveSlot (a : option N) (s : State) : State :=
  mkState (imageData s) (eyeSockets s) (locked s) (glowIntensity s)
    (profiles s) a (statusMsg s) (draggingIdx s) (hoverSocket s).
Definition setStatusMsg (m : string) (s : State) : State :=
  mkState (imageData s) (eyeSockets s) (locked s) (glowIntensity s)
    (profiles s) (activeSlot s) m (draggingIdx s) (hoverSocket s).
Definition setDraggingIdx (i : option nat) (s : State) : State :=
  mkState (imageData s) (eyeSockets s) (locked s) (glowIntensity s)
    (profiles s) (activeSlot s) (statusMsg s) i (hoverSocket s).
Definition setHoverSocket (i : option nat) (s : State) : State :=
  mkState (imageData s) (eyeSockets s) (locked s) (glowIntensity s)
    (profiles s) (activeSlot s) (statusMsg s) (draggingIdx s) i.

(** The component together with what it acts on: its state, the database,
    and the [mousemove]/[mouseup] listener pairs that unfinished drags have
    on [window], each with the marker index it was created for. *)
Record World : Type := mkWorld {
  state : State;
  db : DB;
  drag_listeners : list nat
}.

Definition upd (f : State -> State) (w : World) : World :=
  mkWorld (f (state w)) (db w) (drag_listeners w).

Definition with_db (d : DB) (w : World) : World :=
  mkWorld (state w) d (drag_listeners w).

Definition with_listeners (l : list nat) (w : World) : World :=
  mkWorld (state w) (db w) l.

(** [flash(msg)]: the status message; the timer that blanks it again is not
    modelled. *)
Definition flash (msg : string) (w : World) : World := upd (setStatusMsg msg) w.

(** ** Slots *)

(** The template [`img_slot_${slot}`]. The component passes the numbers 1
    to 6 as slots ([slotKeys], and [parseInt] of a key between ["1"] and
    ["6"]); the decimal numeral is the text of such a number, as of every
    integer that a JavaScript number holds exactly and prints in full. *)
Definition img_slot (slot : N) : string := "img_slot_" +:+ pretty slot.

(** The property key that [slot] is used as in [profiles[slot]]: a slot is
    the integer that [parseInt] reads off a key, or one of [slotKeys], and
    such a number turns into its decimal numeral. *)
Definition slot_key (slot : N) : string := pretty slot.

(** The slots of the slot bar. *)
Definition slotKeys : list N := [1; 2; 3; 4; 5; 6]%N.

(** The ISO 8601 text that [new Date().toISOString()] returns when a profile
    is made; the clock belongs to the environment. *)
Definition timestamp := string.

(** The object literal of [saveSlot]. *)
Definition make_profile (slot : N) (sockets : list jsval) (lock : jsval)
  (savedAt : timestamp) : jsval :=
  JObj [("slot", JNum (of_Z (Z.of_N slot)));
        ("imageKey", JStr (img_slot slot));
        ("eyeSockets", JArr sockets);
        ("locked", lock);
        ("savedAt", JStr savedAt)].

(** How the storage answers the requests of one handler. *)
Record Storage : Type := mkStorage {
  put_image : io_result;
  put_profiles : io_result;
  get_image : io_result
}.

Definition storage_ok : Storage := mkStorage IoDone IoDone IoDone.

(** [saveSlot(slot)]. The handler reads the state of the render it was
    created in, [snap], and writes through the state setters. Handlers are
    taken to run one at a time, each to its end. *)
Definition saveSlot (io : Storage) (now : timestamp) (snap : State) (slot : N)
  (w : World) : outcome World :=
  if negb (truthy (imageData snap)) then Returns (flash "No image loaded" w)
  else
    sockets ← array_spread (eyeSockets snap);
    let profile := make_profile slot sockets (locked snap) now in
    Returns
      (try_catch
         (d1 ← dbPut (put_image io) IMG_STORE (img_slot slot) (imageData snap)
                 (db w);
          let updated :=
            JObj (set_prop (object_spread (profiles snap)) (slot_key slot)
                    profile) in
          match dbPut (put_profiles io) PROFILE_STORE "allProfiles" updated d1
          with
          | Returns d2 =>
              Returns
                (flash ("Scene saved to slot " +:+ pretty slot)
                   (upd (setActiveSlot (Some slot))
                      (upd (setProfiles updated) (with_db d2 w))))
          | Throws _ => Returns (flash "Save failed" (with_db d1 w))
          end)
         (fun _ => flash "Save failed" w)).

(** [loadSlot(slot)] *)
Definition loadSlot (io : Storage) (snap : State) (slot : N) (w : World)
  : outcome World :=
  profile ← get_prop (profiles snap) (slot_key slot);
  if negb (truthy profile) then
    Returns (flash ("Slot " +:+ pretty slot +:+ " is empty") w)
  else
    Returns
      (try_catch
         (key ← get_prop profile "imageKey";
          img ← dbGet (get_image io) IMG_STORE key (db w);
          if truthy img then
            sockets ← get_prop profile "eyeSockets";
            lock ← get_prop profile "locked";
            Returns
              (flash ("Loaded slot " +:+ pretty slot)
                 (upd (setActiveSlot (Some slot))
                    (upd (setLocked (js_or lock (JBool false)))
                       (upd (setEyeSockets (js_or sockets (JArr [])))
                          (upd (setImageData img) w)))))
          else Returns (flash ("Image missing for slot " +:+ pretty slot) w))
         (fun _ => flash "Load failed" w)).

(** The effect run on mount: the saved registry, when there is one. *)
Definition load_profiles_on_mount (io : io_result) (w : World) : World :=
  try_catch
    (saved ← dbGet io PROFILE_STORE (JStr "allProfiles") (db w);
     Returns (if truthy saved then upd (setProfiles saved) w else w))
    (fun _ => w).

(** ** Uploading a portrait *)

(** [handleFileChange]: [file] is the data URL that the reader produces for
    the chosen file, if one was chosen. *)
Definition handleFileChange (file : option string) (w : World) : World :=
  match file with
  | None => w
  | Some url =>
      upd (setActiveSlot None)
        (upd (setLocked (JBool false))
           (upd (setEyeSockets (JArr []))
              (upd (setImageData (JStr url)) w)))
  end.

(** ** Placing, dragging and deleting markers *)

Record MouseEvent : Type := mkMouse { clientX : number; clientY : number }.

(** [containerRef.current.getBoundingClientRect()] *)
Record DOMRect : Type := mkRect {
  left : number; top : number; width : number; height : number
}.

(** The object literal [{ x, y }]. *)
Definition point (x y : number) : jsval := JObj [("x", JNum x); ("y", JNum y)].

(** [handleImageClick] *)
Definition handleImageClick (e : MouseEvent) (rect : DOMRect) (w : World)
  : outcome World :=
  let s := state w in
  if truthy (locked s) || negb (truthy (imageData s)) then Returns w
  else if bool_decide (draggingIdx s ≠ None) then Returns w
  else
    let x := div (sub (clientX e) (left rect)) (width rect) in
    let y := div (sub (clientY e) (top rect)) (height rect) in
    prev ← array_spread (eyeSockets (state w));
    Returns (upd (setEyeSockets (JArr (prev ++ [point x y]))) w).

(** [handleSocketMouseDown(e, idx)]: starts a drag and puts its [handleMove]
    and [handleUp] on [window]. *)
Definition handleSocketMouseDown (idx : nat) (w : World) : World :=
  if truthy (locked (state w)) then w
  else
    with_listeners (drag_listeners w ++ [idx]) (upd (setDraggingIdx (Some idx)) w).

(** [prev.map((s, i) => (i === idx ? p : s))]; only arrays have [map]. *)
Definition replace_at (idx : nat) (p : jsval) (prev : jsval) : outcome jsval :=
  match prev with
  | JArr items =>
      Returns (JArr (imap (fun i s => if Nat.eqb i idx then p else s) items))
  | _ => Throws TypeError
  end.

(** [Math.max(0, Math.min(1, v))] *)
Definition clamp01 (v : number) : number := Math_max zero (Math_min one v).

(** The [handleMove] listener of the drag of marker [idx]. *)
Definition handleMove (idx : nat) (me : MouseEvent) (rect : DOMRect) (w : World)
  : outcome World :=
  let x := clamp01 (div (sub (clientX me) (left rect)) (width rect)) in
  let y := clamp01 (div (sub (clientY me) (top rect)) (height rect)) in
  sockets ← replace_at idx (point x y) (eyeSockets (state w));
  Returns (upd (setEyeSockets sockets) w).

(** A [mousemove] on [window] runs every [handleMove] registered there. *)
Fixpoint run_moves (listeners : list nat) (me : MouseEvent) (rect : DOMRect)
  (w : World) : outcome World :=
  match listeners with
  | [] => Returns w
  | idx :: rest => w' ← handleMove idx me rect w; run_moves rest me rect w'
  end.

Definition window_mousemove (me : MouseEvent) (rect : DOMRect) (w : World)
  : outcome World :=
  run_moves (drag_listeners w) me rect w.

Fixpoint remove_listener (idx : nat) (listeners : list nat) : list nat :=
  match listeners with
  | [] => []
  | i :: rest => if Nat.eqb i idx then rest else i :: remove_listener idx rest
  end.

(** The [handleUp] listener of the drag of marker [idx]: it ends the drag
    and takes itself and its [handleMove] off [window]. *)
Definition handleUp (idx : nat) (w : World) : World :=
  with_listeners (remove_listener idx (drag_listeners w))
    (upd (setDraggingIdx None) w).

(** A [mouseup] on [window] runs every [handleUp] registered there. *)
Definition window_mouseup (w : World) : World :=
  fold_left (fun w' idx => handleUp idx w') (drag_listeners w) w.

(** The lock button: [setLocked((l) => !l)]. *)
Definition toggleLock (w : World) : World :=
  upd (fun s => setLocked (JBool (negb (truthy (locked s)))) s) w.

(** The elements whose index, counted from [i], is not [idx]. *)
Fixpoint filter_index (i idx : nat) (items : list jsval) : list jsval :=
  match items with
  | [] => []
  | x :: rest =>
      if Nat.eqb i idx then filter_index (S i) idx rest
      else x :: filter_index (S i) idx rest
  end.

(** [prev.filter((_, i) => i !== idx)]; only arrays have [filter]. *)
Definition remove_at (idx : nat) (prev : jsval) : outcome jsval :=
  match prev with
  | JArr items => Returns (JArr (filter_index 0 idx items))
  | _ => Throws TypeError
  end.

(** ** The keyboard *)

Record KeyboardEvent : Type := mkKey {
  code : string;
  key : string;
  shiftKey : bool;
  repeat : bool
}.

Fixpoint leading_digits (acc : N) (s : string) : N :=
  match s with
  | EmptyString => acc
  | String c s' =>
      match digit_of c with
      | Some d => leading_digits (10 * acc + d)%N s'
      | None => acc
      end
  end.

(** [parseInt(s)] for a text without leading blanks, sign or [0x]: the
    number its leading decimal digits spell, and NaN ([None]) when it starts
    with none. [handleKeyDown] calls it only on a key that starts with one
    of the digits 1 to 6. *)
Definition parseInt (s : string) : option N :=
  match s with
  | EmptyString => None
  | String c _ =>
      match digit_of c with
      | Some _ => Some (leading_digits 0 s)
      | None => None
      end
  end.

(** The delete branch of [handleKeyDown], with the [hoverSocket] and
    [locked] of the render the handler was created in. *)
Definition delete_hovered (snap : State) (e : KeyboardEvent) (w : World)
  : outcome World :=
  match hoverSocket snap with
  | Some idx =>
      if (String.eqb (code e) "Backspace" || String.eqb (code e) "Delete")
         && negb (truthy (locked snap))
      then
        sockets ← remove_at idx (eyeSockets (state w));
        Returns (upd (setHoverSocket None) (upd (setEyeSockets sockets) w))
      else Returns w
  | None => Returns w
  end.

(** The slot branch of [handleKeyDown]: the string comparisons
    [e.key >= "1" && e.key <= "6"], then [Shift] saves and the bare key
    loads. *)
Definition slot_hotkey (io : Storage) (now : timestamp) (snap : State)
  (e : KeyboardEvent) (w : World) : outcome World :=
  if String.leb "1" (key e) && String.leb (key e) "6" && negb (repeat e) then
    match parseInt (key e) with
    | Some slot =>
        if shiftKey e then saveSlot io now snap slot w
        else loadSlot io snap slot w
    | None => Returns w
    end
  else Returns w.

(** [handleKeyDown]. The save or load that a slot key starts is asynchronous:
    it settles after the rest of the handler has run, so the delete branch
    comes first here. *)
Definition handleKeyDown (io : Storage) (now : timestamp) (e : KeyboardEvent)
  (w : World) : outcome World :=
  let snap := state w in
  let w1 :=
    if String.eqb (code e) "Space" && negb (repeat e)
    then upd (setGlowIntensity one) w else w in
  w2 ← delete_hovered snap e w1;
  slot_hotkey io now snap e w2.

(** [handleKeyUp] *)
Definition handleKeyUp (e : KeyboardEvent) (w : World) : World :=
  if String.eqb (code e) "Space" then upd (setGlowIntensity zero) w else w.

(** ** Export and import *)

(** [exportProfiles]: the text of the downloaded file. *)
Definition exportProfiles (w : World) : file_text * World :=
  (stringify_text (profiles (state w)), flash "Profiles exported" w).

(** [importProfiles]: [file] is the text the reader produces for the chosen
    file, if one was chosen. *)
Definition importProfiles (io : io_result) (file : option file_text) (w : World)
  : World :=
  match file with
  | None => w
  | Some text =>
      try_catch
        (data ← JSON_parse text;
         d ← dbPut io PROFILE_STORE "allProfiles" data (db w);
         Returns (flash "Profiles imported" (upd (setProfiles data) (with_db d w))))
        (fun _ => flash "Invalid profile file" w)
  end.

(** ** The data model of the specification

    The predicates below say what the specification calls a point, a scene
    profile and a profile registry; the handlers never check them. *)

Definition is_zero (v : number) : bool :=
  match v with S754_zero _ => true | _ => false end.

Definition is_neg_zero (v : number) : bool :=
  match v with S754_zero true => true | _ => false end.

(** Clamping to [0,1] as the specification words it: below 0 gives 0, above
    1 gives 1, anything between is kept (the zero as +0). *)
Definition clamp_to_unit (v : number) : number :=
  if ltb v zero then zero
  else if ltb one v then one
  else if is_zero v then zero
  else v.

(** [k1] may come before [k2] in the property list of an object: index keys
    ascend and precede the other keys, and no key occurs twice. *)
Definition key_before (k1 k2 : string) : bool :=
  match array_index k1, array_index k2 with
  | Some a, Some b => (a <? b)%N
  | Some _, None => true
  | None, Some _ => false
  | None, None => negb (String.eqb k1 k2)
  end.

(** The key order every JavaScript object has. *)
Fixpoint js_ordered (keys : list string) : bool :=
  match keys with
  | [] => true
  | k :: rest => forallb (key_before k) rest && js_ordered rest
  end.

(** The values that [JSON.stringify] writes without loss: no [undefined]
    anywhere, and no number that is NaN, infinite or -0. *)
Fixpoint json_safe (v : jsval) : bool :=
  match v with
  | JUndefined => false
  | JNull | JBool _ | JStr _ => true
  | JNum (S754_finite _ _ _) | JNum (S754_zero false) => true
  | JNum _ => false
  | JArr items => forallb json_safe items
  | JObj props =>
      forallb (fun kv => json_safe (snd kv)) props && js_ordered (map fst props)
  end.

#[global] Instance number_eq_dec : EqDecision number.
Proof. solve_decision. Defined.

(** A coordinate of a point: [x] or [y], a number of [0,1]. The zero is +0,
    the only zero that has a JSON text. *)
Definition point_field (kv : string * jsval) : bool :=
  match kv with
  | (k, JNum n) =>
      (String.eqb k "x" || String.eqb k "y") && in_unit n && negb (is_neg_zero n)
  | _ => false
  end.

(** Point: [{x, y}], both in [0,1]. *)
Definition valid_point (p : jsval) : bool :=
  match p with
  | JObj f =>
      forallb point_field f && js_ordered (map fst f)
      && has_key f "x" && has_key f "y"
  | _ => false
  end.

Definition profile_field (slot : N) (kv : string * jsval) : bool :=
  let (k, v) := kv in
  if String.eqb k "slot" then
    match v with JNum n => bool_decide (n = of_Z (Z.of_N slot)) | _ => false end
  else if String.eqb k "imageKey" then
    match v with JStr s => String.eqb s (img_slot slot) | _ => false end
  else if String.eqb k "eyeSockets" then
    match v with JArr pts => forallb valid_point pts | _ => false end
  else if String.eqb k "locked" then
    match v with JBool _ => true | _ => false end
  else if String.eqb k "savedAt" then
    match v with JStr _ => true | _ => false end
  else false.

(** SceneProfile, in the persisted shape that the README documents:
    [{slot, imageKey, eyeSockets, locked, savedAt}]. *)
Definition valid_profile (slot : N) (p : jsval) : bool :=
  match p with
  | JObj f =>
      forallb (profile_field slot) f && js_ordered (map fst f)
      && has_key f "slot" && has_key f "imageKey" && has_key f "eyeSockets"
      && has_key f "locked" && has_key f "savedAt"
  | _ => false
  end.

Definition registry_entry (kv : string * jsval) : bool :=
  match array_index (fst kv) with
  | Some n => (1 <=? n)%N && (n <=? 6)%N && valid_profile n (snd kv)
  | None => false
  end.

(** ProfileRegistry: an object from slot numbers 1..6 to scene profiles. *)
Definition valid_registry (r : jsval) : bool :=
  match r with
  | JObj entries => forallb registry_entry entries && js_ordered (map fst entries)
  | _ => false
  end.

(** The key does not begin with one of the digits 1 to 6. So it is with
    every key of a keyboard other than the six slot keys: [e.key] is the one
    character that the key types, or a name such as [Enter], [Shift], [F1]
    or [ArrowUp]. *)
Definition names_no_slot (k : string) : bool :=
  match k with
  | EmptyString => true
  | String c _ => (N_of_ascii c <? 49)%N || (54 <? N_of_ascii c)%N
  end.

(** The scene fields of the state: what the specification calls SceneState. *)
Definition scene (s : State) : jsval * jsval * jsval * option N :=
  (imageData s, eyeSockets s, locked s, activeSlot s).

(** ** Sample data *)

Module Sample.

Definition portrait : jsval := JStr "data:image/png;base64,iVBORw0KGgo=".
Definition other_url : string := "data:image/jpeg;base64,/9j/4AAQ".

Definition now : timestamp := "2025-02-05T12:00:00.000Z".

Definition decimal (num den : Z) : number := div (of_Z num) (of_Z den).

Definition left_eye : jsval := point (decimal 35 100) (decimal 42 100).
Definition right_eye : jsval := point (decimal 65 100) (decimal 42 100).

Definition empty_db : DB := mkDB ∅ ∅.

(** A portrait was uploaded and two markers placed. *)
Definition editing : World :=
  mkWorld
    (mkState portrait (JArr [left_eye; right_eye]) (JBool false) zero
       (JObj []) None "" None None)
    empty_db [].

Definition locked_scene : World := toggleLock editing.

(** The component as mounted, and after a portrait was uploaded. *)
Definition fresh : World := mkWorld initial_state empty_db [].
Definition uploaded : World :=
  handleFileChange (Some "data:image/png;base64,iVBORw0KGgo=") fresh.

(** The container at a fractional layout offset. *)
Definition rect : DOMRect :=
  mkRect (decimal 1004 10) (of_Z 50) (of_Z 700) (of_Z 900).

(** The container at a whole-pixel offset. *)
Definition plain_rect : DOMRect :=
  mkRect (of_Z 100) (of_Z 50) (of_Z 700) (of_Z 900).

Definition click_at_edge : MouseEvent := mkMouse (of_Z 100) (of_Z 428).

(** What [handleImageClick] computes for [click_at_edge]. *)
Definition edge_x : number :=
  div (sub (of_Z 100) (decimal 1004 10)) (of_Z 700).
Definition edge_y : number := div (sub (of_Z 428) (of_Z 50)) (of_Z 900).
Definition click_inside : MouseEvent := mkMouse (of_Z 345) (of_Z 428).

Definition delete_key : KeyboardEvent := mkKey "Delete" "Delete" false false.

Definition profile_of (slot : N) : jsval :=
  make_profile slot [left_eye; right_eye] (JBool true) now.

Definition registry0 : jsval := JObj [].
Definition registry1 : jsval := JObj [("1", profile_of 1)].
Definition registry6 : jsval :=
  JObj [("1", profile_of 1); ("2", profile_of 2); ("3", profile_of 3);
        ("4", profile_of 4); ("5", profile_of 5); ("6", profile_of 6)].

Definition with_registry (r : jsval) : World :=
  mkWorld (setProfiles r (state editing))
    (mkDB ∅ {["allProfiles" := r]}) [].

(** A JSON document that is not a registry: a slot key outside 1..6, and
    a profile without its fields. *)
Definition stray_document : json :=
  JsonObj [("7", JsonObj [("slot", JsonNum (of_Z 7))])].

(** The registry holds slot 1; the image store is empty, as after an
    import on another machine. *)
Definition stored1 : World := with_registry registry1.

(** The same, with the image of another slot in the image store. *)
Definition dangling1 : World :=
  mkWorld (setProfiles registry1 (state editing))
    (mkDB {["img_slot_2" := portrait]} {["allProfiles" := registry1]}) [].

Definition after_stray_import : World :=
  importProfiles IoDone (Some (JsonText stray_document)) stored1.

(** A registry, as an import can bring it, whose profile of slot 1 has no
    [eyeSockets] and [null] for [locked]. *)
Definition bare_profile : list (string * jsval) :=
  [("slot", JNum (of_Z 1)); ("imageKey", JStr "img_slot_1"); ("locked", JNull)].

Definition bare_world : World :=
  mkWorld (setProfiles (JObj [("1", JObj bare_profile)]) initial_state)
    (mkDB {["img_slot_1" := portrait]} ∅) [].

Definition failing_image_write : Storage := mkStorage IoFails IoDone IoDone.

(** Shift with the key 7. *)
Definition shift_7 : KeyboardEvent := mkKey "Digit7" "7" true false.

(** A registry file whose profile of slot 1 names no image key. *)
Definition keyless_document : json :=
  JsonObj [("1", JsonObj [("slot", JsonNum (of_Z 1))])].

(** The component as mounted, after the import of that file. *)
Definition keyless_import : World :=
  importProfiles IoDone (Some (JsonText keyless_document)) fresh.

(** The locked scene with the pointer still over the first marker. *)
Definition locked_hovering : World := upd (setHoverSocket (Some 0%nat)) locked_scene.

End Sample.

(** ** The database behind the stores *)

(** [DB_VERSION] *)
Definition DB_VERSION : N := 2.

(** The names [IMG_STORE] and [PROFILE_STORE] stand for. *)
Definition store_id (store : store_name) : string :=
  match store with
  | IMG_STORE => "images"
  | PROFILE_STORE => "profiles"
  end.

(** The browser's database [LivingPortraitDB]: its version, 0 while it does
    not exist, and its object stores by name. *)
Record IDBDatabase : Type := mkIDB {
  idb_version : N;
  objectStores : gmap string (gmap string jsval)
}.

Definition no_database : IDBDatabase := mkIDB 0 ∅.

(** [db.objectStoreNames.contains(name)] *)
Definition contains (name : string) (d : IDBDatabase) : bool :=
  bool_decide (is_Some (objectStores d !! name)).

(** [db.createObjectStore(name)], called for a name the database lacks. *)
Definition createObjectStore (name : string) (d : IDBDatabase) : IDBDatabase :=
  mkIDB (idb_version d) (<[name := ∅]> (objectStores d)).

(** The [onupgradeneeded] handler of [openDB]. *)
Definition onupgradeneeded (d : IDBDatabase) : IDBDatabase :=
  let d1 :=
    if contains (store_id IMG_STORE) d then d
    else createObjectStore (store_id IMG_STORE) d in
  if contains (store_id PROFILE_STORE) d1 then d1
  else createObjectStore (store_id PROFILE_STORE) d1.

(** [openDB()]: [indexedDB.open(DB_NAME, DB_VERSION)] upgrades a database of
    a lower version, running [onupgradeneeded], opens one of the same
    version as it is, and fails on one of a higher version. *)
Definition openDB (d : IDBDatabase) : outcome IDBDatabase :=
  if (idb_version d <? DB_VERSION)%N then
    Returns (mkIDB DB_VERSION (objectStores (onupgradeneeded d)))
  else if (DB_VERSION <? idb_version d)%N then Throws StoreError
  else Returns d.

(** [dbPut] with its [openDB], on the browser's database; a transaction on a
    store that the database lacks throws. *)
Definition put_opening (store : store_name) (key : string) (value : jsval)
  (d : IDBDatabase) : outcome IDBDatabase :=
  d1 ← openDB d;
  match objectStores d1 !! store_id store with
  | Some records =>
      Returns
        (mkIDB (idb_version d1)
           (<[store_id store := <[key := value]> records]> (objectStores d1)))
  | None => Throws StoreError
  end.

(** [dbGet] with its [openDB]: the value read and the database as the
    opening leaves it. *)
Definition get_opening (store : store_name) (key : jsval) (d : IDBDatabase)
  : outcome (jsval * IDBDatabase) :=
  d1 ← openDB d;
  match objectStores d1 !! store_id store with
  | Some records =>
      if valid_key key then
        match key with
        | JStr k =>
            match records !! k with
            | Some v => Returns (v, d1)
            | None => Returns (JUndefined, d1)
            end
        | _ => Returns (JUndefined, d1)
        end
      else Throws DataError
  | None => Throws StoreError
  end.

(** The two stores of an opened database, as [dbPut] and [dbGet] see
    them. *)
Definition stores_of (d : IDBDatabase) : option DB :=
  match objectStores d !! store_id IMG_STORE,
        objectStores d !! store_id PROFILE_STORE with
  | Some imgs, Some profs => Some (mkDB imgs profs)
  | _, _ => None
  end.

(** ** The slot bar *)

(** The slot bar draws slot [s] as occupied when [profiles[s]] is truthy. *)
Definition slot_occupied (s : State) (slot : N) : outcome bool :=
  p ← get_prop (profiles s) (slot_key slot);
  Returns (truthy p).

(** ... and highlights it when [activeSlot === s]. *)
Definition slot_active (s : State) (slot : N) : bool :=
  bool_decide (activeSlot s = Some slot).

(** ** Events *)

(** A new session on the same browser: the component starts from its
    initial state and the effect run on mount reads the registry. *)
Definition reload (io : io_result) (w : World) : World :=
  load_profiles_on_mount io (mkWorld initial_state (db w) []).

(** What can happen to the mounted component: the user's input, each with
    what the environment contributes to it (the layout of the container,
    the clock, the answers of the storage). *)
Inductive Event : Type :=
| ChooseFile (file : option string)
| ClickPortrait (e : MouseEvent) (rect : DOMRect)
| MouseEnterMarker (idx : nat)
| MouseLeaveMarker
| MouseDownMarker (idx : nat)
| MouseMove (me : MouseEvent) (rect : DOMRect)
| MouseUp
| KeyDown (io : Storage) (now : timestamp) (e : KeyboardEvent)
| KeyUp (e : KeyboardEvent)
| ClickSlot (io : Storage) (slot : N)
| ClickLock
| ClickExport
| ChooseImport (io : io_result) (file : option file_text)
| Reload (io : io_result).

(** The handler that the component has registered for the event. *)
Definition handle (ev : Event) (w : World) : outcome World :=
  match ev with
  | ChooseFile file => Returns (handleFileChange file w)
  | ClickPortrait e rect => handleImageClick e rect w
  | MouseEnterMarker idx => Returns (upd (setHoverSocket (Some idx)) w)
  | MouseLeaveMarker => Returns (upd (setHoverSocket None) w)
  | MouseDownMarker idx => Returns (handleSocketMouseDown idx w)
  | MouseMove me rect => window_mousemove me rect w
  | MouseUp => Returns (window_mouseup w)
  | KeyDown io now e => handleKeyDown io now e w
  | KeyUp e => Returns (handleKeyUp e w)
  | ClickSlot io slot => loadSlot io (state w) slot w
  | ClickLock => Returns (toggleLock w)
  | ClickExport => Returns (snd (exportProfiles w))
  | ChooseImport io file => Returns (importProfiles io file w)
  | Reload io => Returns (reload io w)
  end.

(** A session: the events are handled one at a time, each handler running
    to its end, its storage requests included, and the component rendering
    before the next event, so that each handler reads the state the one
    before it left. Handlers that overlap, a second event arriving while a
    storage request is pending, are not modelled. *)
Fixpoint run (events : list Event) (w : World) : outcome World :=
  match events with
  | [] => Returns w
  | ev :: rest => w' ← handle ev w; run rest w'
  end.

Definition is_import (ev : Event) : bool :=
  match ev with
  | ChooseImport _ (Some _) => true
  | _ => false
  end.

(** A registry entry as [saveSlot] writes it, with its image in the image
    store. *)
Definition saved_entry (d : DB) (kv : string * jsval) : Prop :=
  exists slot pts lock savedAt img,
    fst kv = slot_key slot /\
    snd kv = make_profile slot pts lock savedAt /\
    images d !! img_slot slot = Some img /\ truthy img = true.

(** A registry all of whose entries are. *)
Definition saved_registry (d : DB) (r : jsval) : Prop :=
  exists entries, r = JObj entries /\ Forall (saved_entry d) entries.

(** What holds of the component as long as nothing is imported: the points
    are a list, and the registry, in the state and in the store, is made of
    entries that [saveSlot] wrote, each with its image. *)
Definition sound (w : World) : Prop :=
  (exists items, eyeSockets (state w) = JArr items) /\
  saved_registry (db w) (profiles (state w)) /\
  (forall r, profiles_store (db w) !! "allProfiles" = Some r ->
             saved_registry (db w) r).

Definition mount_read_fails (ev : Event) : bool :=
  match ev with
  | Reload IoFails => true
  | _ => false
  end.

(** What a read of the registry resolves with. *)
Definition stored_registry (d : DB) : jsval :=
  default JUndefined (profiles_store d !! "allProfiles").

(** The registry of the state is the stored one; where none is stored, or a
    falsy value, the registry of the state is the empty one it starts as. *)
Definition mirrored (w : World) : Prop :=
  profiles_store (db w) !! "allProfiles" = Some (profiles (state w)) \/
  (truthy (stored_registry (db w)) = false /\ profiles (state w) = JObj []).

(** ** More sample data *)

Module Session.

(** The world a handler ends in. *)
Definition settled (o : outcome World) : World :=
  match o with
  | Returns w => w
  | Throws _ => Sample.fresh
  end.

(** Slot 1, and then slot 3, were saved from the locked scene. *)
Definition saved1 : World :=
  settled (saveSlot storage_ok Sample.now (state Sample.locked_scene) 1
             Sample.locked_scene).

Definition saved13 : World :=
  settled (saveSlot storage_ok Sample.now (state saved1) 3 saved1).

Definition failing_registry_write : Storage := mkStorage IoDone IoFails IoDone.

(** A browser where an earlier version of the page left version 1 of the
    database with the image store only. *)
Definition old_database : IDBDatabase :=
  mkIDB 1 {["images" := {["img_slot_1" := Sample.portrait]}]}.

(** The digit key [c] of the top row, with or without Shift, on a layout
    where the key types the digit. *)
Definition digit_key (c : ascii) (shift : bool) : KeyboardEvent :=
  mkKey ("Digit" +:+ String c EmptyString) (String c EmptyString) shift false.

(** The pointer is over the first marker of the scene being edited. *)
Definition hovering_first : World :=
  upd (setHoverSocket (Some 0%nat)) Sample.editing.

(** Upload, one marker placed and dragged to the corner, lock, Shift+2, a
    new session, and a click on slot 2. *)
Definition editing_session : list Event :=
  [ChooseFile (Some Sample.other_url);
   ClickPortrait Sample.click_inside Sample.plain_rect;
   MouseDownMarker 0;
   MouseMove (mkMouse (of_Z 2000) (of_Z 20)) Sample.plain_rect;
   MouseUp;
   ClickLock;
   KeyDown storage_ok Sample.now (digit_key "2" true);
   Reload IoDone;
   ClickSlot storage_ok 2].


(** The same, followed by the import of a document that is no registry. *)
Definition import_session : list Event :=
  editing_session ++ [ChooseImport IoDone (Some (JsonText Sample.stray_document))].

End Session.

(** * Properties *)

(** ** Numbers *)

Lemma one_eq : one = S754_finite false 4503599627370496 (-52).
Proof. reflexivity. Qed.

Lemma SFcompare_antisym a b c :
  SFcompare a b = Some c -> SFcompare b a = Some (CompOpp c).
Proof.
  destruct a as [sa|sa| |sa ma ea], b as [sb|sb| |sb mb eb]; simpl;
    try discriminate;
    try (intros [= <-]; reflexivity);
    try (destruct sa; intros [= <-]; reflexivity);
    try (destruct sb; intros [= <-]; reflexivity);
    try (destruct sa, sb; intros [= <-]; reflexivity).
  destruct sa, sb; intros [= <-]; try reflexivity;
    rewrite (Z.compare_antisym ea eb);
    destruct (ea ?= eb)%Z; simpl; try reflexivity;
    change PosDef.Pos.compare_cont with Pos.compare_cont;
    rewrite (Pos.compare_cont_antisym ma mb Eq); simpl;
    destruct (Pos.compare_cont Eq ma mb); reflexivity.
Qed.

Lemma clamp01_in_unit v : is_nan v = false -> in_unit (clamp01 v) = true.
Proof.
  intros Hv. unfold clamp01, in_unit, leb.
  unfold Math_min.
  destruct (SFcompare one v) as [c|] eqn:Hc.
  2:{ destruct v; try discriminate; simpl in Hc; discriminate. }
  pose proof (SFcompare_antisym _ _ _ Hc) as Hc'.
  destruct c.
  - rewrite one_eq. reflexivity.
  - rewrite one_eq. reflexivity.
  - (* one > v : result v *)
    unfold Math_max. 
    destruct (SFcompare zero v) as [c|] eqn:Hz.
    2:{ destruct v; try discriminate. }
    pose proof (SFcompare_antisym _ _ _ Hz) as Hz'.
    destruct c.
    + unfold zero. destruct v as [[]| | |]; try reflexivity; simpl in *; try discriminate.
      all: unfold SFleb; try rewrite Hz; try rewrite Hc'; try reflexivity.
    + unfold SFleb. rewrite Hz, Hc'. reflexivity.
    + reflexivity.
Qed.

(** [Math.max(0, Math.min(1, v))] is the clamp of the specification. *)
Lemma clamp01_spec v : is_nan v = false -> clamp01 v = clamp_to_unit v.
Proof.
  intros Hv. unfold clamp01, clamp_to_unit, Math_max, Math_min, ltb, SFltb.
  rewrite one_eq. unfold zero.
  destruct v as [s|s| |s m e]; try discriminate.
  - destruct s; reflexivity.
  - destruct s; reflexivity.
  - unfold SFcompare. destruct s; [reflexivity|].
    destruct (-52 ?= e)%Z eqn:He; try reflexivity.
    change PosDef.Pos.compare_cont with Pos.compare_cont.
    destruct (Pos.compare_cont Eq 4503599627370496 m) eqn:Hm; try reflexivity.
    apply Z.compare_eq in He. apply Pos.compare_eq in Hm. subst. reflexivity.
Qed.

(** ** Property lists *)

Section PropertyLists.

Implicit Types (o : list (string * jsval)) (k : string) (v : jsval).

Lemma eqb_key_refl k : String.eqb k k = true.
Proof. apply String.eqb_refl. Qed.

Lemma assoc_replace_prop o k v :
  has_key o k = true -> assoc (replace_prop o k v) k = Some v.
Proof.
  induction o as [|[k' v'] o IH]; simpl; [discriminate|].
  destruct (String.eqb k' k) eqn:E; simpl; rewrite E; auto.
Qed.

Lemma assoc_insert_index o n k v :
  has_key o k = false -> assoc (insert_index o n k v) k = Some v.
Proof.
  induction o as [|[k' v'] o IH]; simpl.
  - now rewrite eqb_key_refl.
  - intros [E H]%orb_false_iff.
    destruct (array_index k') as [m|]; [destruct (m <? n)%N|]; simpl;
      rewrite ?E, ?eqb_key_refl; auto.
Qed.

Lemma assoc_snoc o k v :
  has_key o k = false -> assoc (o ++ [(k, v)]) k = Some v.
Proof.
  induction o as [|[k' v'] o IH]; simpl.
  - now rewrite eqb_key_refl.
  - intros [E H]%orb_false_iff. rewrite E. auto.
Qed.

(** Reading back the property just written. *)
Lemma assoc_set_prop o k v : assoc (set_prop o k v) k = Some v.
Proof.
  unfold set_prop. destruct (has_key o k) eqn:H.
  - now apply assoc_replace_prop.
  - destruct (array_index k); [now apply assoc_insert_index|now apply assoc_snoc].
Qed.

Lemma key_before_neq k1 k2 : key_before k1 k2 = true -> String.eqb k1 k2 = false.
Proof.
  unfold key_before. intros H.
  destruct (String.eqb k1 k2) eqn:E; [|reflexivity].
  apply String.eqb_eq in E. subst k2.
  destruct (array_index k1); [|discriminate].
  apply N.ltb_lt in H. lia.
Qed.

Lemma has_key_before o k :
  forallb (fun k' => key_before k' k) (map fst o) = true -> has_key o k = false.
Proof.
  induction o as [|[k' v'] o IH]; simpl; [reflexivity|].
  intros [H1 H2]%andb_true_iff.
  now rewrite (key_before_neq _ _ H1), IH.
Qed.

Lemma insert_index_last o n k v :
  array_index k = Some n ->
  forallb (fun k' => key_before k' k) (map fst o) = true ->
  insert_index o n k v = o ++ [(k, v)].
Proof.
  intros Hk. induction o as [|[k' v'] o IH]; simpl; [reflexivity|].
  intros [H1 H2]%andb_true_iff. unfold key_before in H1. rewrite Hk in H1.
  destruct (array_index k'); [|discriminate].
  rewrite H1, IH; auto.
Qed.

(** A key that may follow all the keys of [o] is listed last. *)
Lemma set_prop_last o k v :
  forallb (fun k' => key_before k' k) (map fst o) = true ->
  set_prop o k v = o ++ [(k, v)].
Proof.
  intros H. unfold set_prop. rewrite (has_key_before _ _ H).
  destruct (array_index k) eqn:Hk; [|reflexivity].
  now apply insert_index_last.
Qed.

Lemma js_ordered_snoc (ks : list string) k :
  js_ordered (ks ++ [k]) = js_ordered ks && forallb (fun k' => key_before k' k) ks.
Proof.
  induction ks as [|k0 ks IH]; simpl; [reflexivity|].
  rewrite forallb_app, IH. simpl.
  destruct (forallb (key_before k0) ks), (key_before k0 k), (js_ordered ks);
    simpl; auto.
Qed.

Lemma js_ordered_app_l (ks1 ks2 : list string) :
  js_ordered (ks1 ++ ks2) = true -> js_ordered ks1 = true.
Proof.
  induction ks1 as [|k ks1 IH]; simpl; [reflexivity|].
  rewrite forallb_app. intros [[H1 _]%andb_true_iff H2]%andb_true_iff.
  rewrite H1. auto.
Qed.

Lemma build_from_ordered entries acc :
  js_ordered (map fst (acc ++ entries)) = true ->
  fold_left (fun o kv => set_prop o (fst kv) (snd kv)) entries acc
  = acc ++ entries.
Proof.
  revert acc. induction entries as [|[k v] entries IH]; intros acc H; simpl.
  - now rewrite app_nil_r.
  - assert (Hk : set_prop acc k v = acc ++ [(k, v)]).
    { apply set_prop_last.
      change ((k, v) :: entries) with ([(k, v)] ++ entries) in H.
      rewrite app_assoc, map_app in H. apply js_ordered_app_l in H.
      rewrite map_app in H. cbn [map fst] in H. rewrite js_ordered_snoc in H.
      now apply andb_true_iff in H as [_ H]. }
    rewrite Hk, IH; rewrite <- app_assoc; auto.
Qed.

(** Defining the properties of an object anew, in their order, gives the
    same object. *)
Lemma build_object_ordered entries :
  js_ordered (map fst entries) = true -> build_object entries = entries.
Proof. intros H. unfold build_object. now rewrite build_from_ordered. Qed.

End PropertyLists.

(** *** Writing a property into an ordered object *)

Section RegistryUpdate.

Implicit Types (o : list (string * jsval)) (k : string) (v : jsval).

Lemma array_index_canonical k n : array_index k = Some n -> k = pretty n.
Proof.
  unfold array_index. destruct k as [|c k]; [discriminate|].
  destruct (digits_value 0 (String c k)) as [m|]; [|discriminate].
  destruct (String.eqb (pretty m) (String c k)) eqn:E; [|discriminate].
  destruct (m <? 4294967295)%N; [|discriminate].
  intros [= <-]. symmetry. now apply String.eqb_eq.
Qed.

Lemma replace_prop_keys o k v : map fst (replace_prop o k v) = map fst o.
Proof.
  induction o as [|[k' v'] o IH]; simpl; [reflexivity|].
  destruct (String.eqb k' k); simpl; [reflexivity|now rewrite IH].
Qed.

Lemma forallb_insert_index (P : string -> bool) o n k v :
  forallb P (map fst (insert_index o n k v)) = P k && forallb P (map fst o).
Proof.
  induction o as [|[k' v'] o IH]; simpl; [reflexivity|].
  destruct (array_index k') as [m|]; [destruct (m <? n)%N|]; simpl;
    rewrite ?IH; destruct (P k), (P k'); reflexivity.
Qed.

Lemma key_before_index_trans k k1 k2 n :
  array_index k = Some n ->
  key_before k k1 = true -> key_before k1 k2 = true -> key_before k k2 = true.
Proof.
  unfold key_before. intros ->.
  destruct (array_index k1) as [a|], (array_index k2) as [b|]; auto;
    try discriminate.
  rewrite !N.ltb_lt. lia.
Qed.

Lemma insert_index_ordered o n k v :
  array_index k = Some n -> has_key o k = false ->
  js_ordered (map fst o) = true ->
  js_ordered (map fst (insert_index o n k v)) = true.
Proof.
  intros Hk. induction o as [|[k' v'] o IH]; simpl; [reflexivity|].
  intros [Hne Hnot]%orb_false_iff [Hhead Htail]%andb_true_iff.
  assert (Hfresh : key_before k k' = true ->
                   forallb (key_before k) (map fst ((k', v') :: o)) = true).
  { intros Hkk'. simpl. rewrite Hkk'. simpl.
    apply forallb_forall. intros k2 Hin.
    eapply key_before_index_trans; eauto.
    rewrite forallb_forall in Hhead. auto. }
  destruct (array_index k') as [m|] eqn:Hk'.
  - destruct (m <? n)%N eqn:Hmn; simpl.
    + rewrite forallb_insert_index, Hhead, IH by assumption.
      unfold key_before. now rewrite Hk', Hk, Hmn.
    + rewrite Htail, andb_true_r.
      simpl in Hfresh. rewrite Hfresh, Hhead; [reflexivity|].
      unfold key_before. rewrite Hk, Hk'. apply N.ltb_lt.
      apply N.ltb_ge in Hmn.
      assert (m <> n); [|lia]. intros ->.
      apply array_index_canonical in Hk, Hk'. subst.
      now rewrite String.eqb_refl in Hne.
  - simpl. rewrite Htail, andb_true_r.
    simpl in Hfresh. rewrite Hfresh, Hhead; [reflexivity|].
    unfold key_before. now rewrite Hk, Hk'.
Qed.

Lemma snoc_ordered o k v :
  array_index k = None -> has_key o k = false ->
  js_ordered (map fst o) = true ->
  js_ordered (map fst (o ++ [(k, v)])) = true.
Proof.
  intros Hk Hnot Hord. rewrite map_app. cbn [map fst].
  rewrite js_ordered_snoc, Hord. simpl.
  clear Hord. induction o as [|[k' v'] o IH]; simpl; [reflexivity|].
  simpl in Hnot. apply orb_false_iff in Hnot as [Hne Hnot].
  rewrite IH by assumption. rewrite andb_true_r.
  unfold key_before. rewrite Hk. destruct (array_index k'); [reflexivity|].
  now rewrite Hne.
Qed.

(** Writing a property keeps the key order of an object. *)
Lemma set_prop_ordered o k v :
  js_ordered (map fst o) = true -> js_ordered (map fst (set_prop o k v)) = true.
Proof.
  intros Hord. unfold set_prop. destruct (has_key o k) eqn:Hhas.
  - now rewrite replace_prop_keys.
  - destruct (array_index k) eqn:Hk.
    + now apply insert_index_ordered.
    + now apply snoc_ordered.
Qed.

Lemma forallb_replace_prop (P : string * jsval -> bool) o k v :
  P (k, v) = true -> forallb P o = true -> forallb P (replace_prop o k v) = true.
Proof.
  intros Hkv. induction o as [|[k' v'] o IH]; simpl; [reflexivity|].
  intros [H1 H2]%andb_true_iff.
  destruct (String.eqb k' k) eqn:E; simpl.
  - apply String.eqb_eq in E. subst k'. now rewrite Hkv, H2.
  - now rewrite H1, IH.
Qed.

Lemma forallb_insert_entry (P : string * jsval -> bool) o n k v :
  P (k, v) = true -> forallb P o = true ->
  forallb P (insert_index o n k v) = true.
Proof.
  intros Hkv. induction o as [|[k' v'] o IH]; simpl; [now rewrite Hkv|].
  intros [H1 H2]%andb_true_iff.
  destruct (array_index k') as [m|]; [destruct (m <? n)%N|]; simpl;
    rewrite ?Hkv, ?H1, ?H2, ?IH; auto.
Qed.

Lemma forallb_set_prop (P : string * jsval -> bool) o k v :
  P (k, v) = true -> forallb P o = true -> forallb P (set_prop o k v) = true.
Proof.
  intros Hkv Ho. unfold set_prop. destruct (has_key o k).
  - now apply forallb_replace_prop.
  - destruct (array_index k).
    + now apply forallb_insert_entry.
    + rewrite forallb_app, Ho. simpl. now rewrite Hkv.
Qed.

End RegistryUpdate.

(** ** JSON *)

Lemma stringify_items (items : list jsval) :
  Forall (fun v => json_safe v = true ->
                   json_value <$> JSON_stringify v = Some v) items ->
  forallb json_safe items = true ->
  map json_value
    (map (fun x => match JSON_stringify x with
                   | Some j => j
                   | None => JsonNull
                   end) items) = items.
Proof.
  induction 1 as [|v items Hv _ IH]; simpl; [reflexivity|].
  intros [H1 H2]%andb_true_iff. specialize (Hv H1).
  destruct (JSON_stringify v) as [j|]; [|discriminate].
  injection Hv as ->. now rewrite IH.
Qed.

Lemma stringify_props (props : list (string * jsval)) :
  Forall (fun kv => json_safe (snd kv) = true ->
                    json_value <$> JSON_stringify (snd kv) = Some (snd kv))
    props ->
  forallb (fun kv => json_safe (snd kv)) props = true ->
  map (fun kj => (fst kj, json_value (snd kj)))
    (flat_map (fun kv => match JSON_stringify (snd kv) with
                         | Some j => [(fst kv, j)]
                         | None => []
                         end) props) = props.
Proof.
  induction 1 as [|[k v] props Hv _ IH]; simpl; [reflexivity|].
  intros [H1 H2]%andb_true_iff. specialize (Hv H1). simpl in Hv.
  destruct (JSON_stringify v) as [j|]; [|discriminate].
  injection Hv as <-. simpl. now rewrite IH.
Qed.

(** Writing a value that JSON can hold and reading the text back gives the
    value again. *)
Lemma json_roundtrip (v : jsval) :
  json_safe v = true -> json_value <$> JSON_stringify v = Some v.
Proof.
  induction v as [| |b|n|s|items IH|props IH] using jsval_ind; simpl; try reflexivity;
    try discriminate.
  - destruct n as [[]| | |]; simpl; intros; try discriminate; reflexivity.
  - intros H. now rewrite stringify_items.
  - intros [H1 H2]%andb_true_iff. rewrite stringify_props by assumption.
    now rewrite build_object_ordered.
Qed.

Lemma stringify_text_parse (v : jsval) :
  json_safe v = true -> JSON_parse (stringify_text v) = Returns v.
Proof.
  intros H. apply json_roundtrip in H. unfold stringify_text.
  destruct (JSON_stringify v); [|discriminate]. simpl in *. congruence.
Qed.

(** ** The data model is within JSON *)

Lemma point_field_safe kv : point_field kv = true -> json_safe (snd kv) = true.
Proof.
  destruct kv as [k [| |b|n|s|l|o]]; simpl; try discriminate.
  intros [[_ H1]%andb_true_iff H2]%andb_true_iff.
  destruct n as [[]|[]| |]; simpl in *; try reflexivity; discriminate.
Qed.

Lemma forallb_impl {A} (f g : A -> bool) (l : list A) :
  (forall x, f x = true -> g x = true) ->
  forallb f l = true -> forallb g l = true.
Proof.
  intros Hfg. induction l as [|x l IH]; simpl; [reflexivity|].
  intros [H1 H2]%andb_true_iff. now rewrite (Hfg _ H1), IH.
Qed.

Lemma valid_point_safe p : valid_point p = true -> json_safe p = true.
Proof.
  destruct p as [| |b|n|s|l|f]; simpl; try discriminate.
  intros [[[H1 H2]%andb_true_iff _]%andb_true_iff _]%andb_true_iff.
  rewrite H2, andb_true_r. revert H1. apply forallb_impl, point_field_safe.
Qed.

Lemma slot_number_safe (slot : N) :
  (slot <= 6)%N -> json_safe (JNum (of_Z (Z.of_N slot))) = true.
Proof.
  intros H.
  assert (slot ∈ [0; 1; 2; 3; 4; 5; 6]%N) as Hs.
  { rewrite !elem_of_cons. lia. }
  rewrite !elem_of_cons in Hs.
  destruct Hs as [->|[->|[->|[->|[->|[->|[->|[]%elem_of_nil]]]]]]]; reflexivity.
Qed.

Lemma profile_field_safe slot kv :
  (slot <= 6)%N -> profile_field slot kv = true -> json_safe (snd kv) = true.
Proof.
  intros Hslot. destruct kv as [k v]. unfold profile_field. simpl.
  repeat match goal with
         | |- context [if String.eqb k ?s then _ else _] =>
             destruct (String.eqb k s)
         end; try discriminate;
    destruct v as [| |b|n|s|l|f]; try discriminate; try reflexivity.
  - intros H%bool_decide_eq_true. subst n. now apply slot_number_safe.
  - simpl. apply forallb_impl, valid_point_safe.
Qed.

Lemma valid_profile_safe slot p :
  (slot <= 6)%N -> valid_profile slot p = true -> json_safe p = true.
Proof.
  intros Hslot. destruct p as [| |b|n|s|l|f]; simpl; try discriminate.
  intros H. do 5 (apply andb_true_iff in H as [H _]).
  apply andb_true_iff in H as [H1 H2].
  rewrite H2, andb_true_r. revert H1.
  apply forallb_impl. intros kv. now apply profile_field_safe.
Qed.

Lemma valid_registry_safe r : valid_registry r = true -> json_safe r = true.
Proof.
  destruct r as [| |b|n|s|l|entries]; simpl; try discriminate.
  intros [H1 H2]%andb_true_iff. rewrite H2, andb_true_r. revert H1.
  apply forallb_impl. intros [k p]. unfold registry_entry. simpl.
  destruct (array_index k) as [n|]; [|discriminate].
  intros [[_ Hn%N.leb_le]%andb_true_iff Hp]%andb_true_iff.
  eapply valid_profile_safe; eauto.
Qed.

(** The profile that [saveSlot] makes is a valid one. *)
Lemma valid_made_profile (slot : N) (pts : list jsval) (b : bool)
  (now : timestamp) :
  forallb valid_point pts = true ->
  valid_profile slot (make_profile slot pts (JBool b) now) = true.
Proof.
  intros Hpts. unfold valid_profile, make_profile.
  cbn [forallb profile_field]. cbn -[of_Z img_slot valid_point].
  rewrite Hpts, String.eqb_refl, bool_decide_eq_true_2; reflexivity.
Qed.

Lemma registry_entry_made (slot : N) (pts : list jsval) (b : bool)
  (now : timestamp) :
  (1 <= slot <= 6)%N ->
  forallb valid_point pts = true ->
  registry_entry (slot_key slot, make_profile slot pts (JBool b) now) = true.
Proof.
  intros Hslot Hpts. unfold registry_entry. cbn [fst snd].
  assert (array_index (slot_key slot) = Some slot) as ->.
  { assert (slot ∈ [1; 2; 3; 4; 5; 6]%N) as Hs by (rewrite !elem_of_cons; lia).
    rewrite !elem_of_cons in Hs.
    destruct Hs as [->|[->|[->|[->|[->|[->|[]%elem_of_nil]]]]]]; reflexivity. }
  rewrite valid_made_profile by assumption.
  rewrite (proj2 (N.leb_le 1 slot)), (proj2 (N.leb_le slot 6)) by lia.
  reflexivity.
Qed.

(** ** Running handlers *)

Lemma bind_Returns {A B} (a : A) (f : A -> outcome B) : (Returns a ≫= f) = f a.
Proof. reflexivity. Qed.

Lemma bind_Throws {A B} (e : js_error) (f : A -> outcome B) :
  (Throws e ≫= f) = Throws e.
Proof. reflexivity. Qed.

Ltac run := repeat (rewrite ?bind_Returns, ?bind_Throws; cbn [try_catch]).

(** ** Placing and moving points *)

(** A click on the unlocked portrait appends the quotients as they are. *)
Lemma handleImageClick_stores_raw (e : MouseEvent) (rect : DOMRect) (w : World)
  (items : list jsval) :
  truthy (locked (state w)) = false ->
  truthy (imageData (state w)) = true ->
  draggingIdx (state w) = None ->
  eyeSockets (state w) = JArr items ->
  handleImageClick e rect w =
    Returns
      (upd (setEyeSockets
              (JArr (items ++
                       [point (div (sub (clientX e) (left rect)) (width rect))
                          (div (sub (clientY e) (top rect)) (height rect))])))
         w).
Proof.
  intros Hl Hi Hd Hs. unfold handleImageClick.
  rewrite Hl, Hi, Hd, Hs. reflexivity.
Qed.

(** A drag replaces the marker by the clamped quotients. *)
Lemma handleMove_stores_clamped (idx : nat) (me : MouseEvent) (rect : DOMRect)
  (w : World) (items : list jsval) :
  eyeSockets (state w) = JArr items ->
  handleMove idx me rect w =
    Returns
      (upd (setEyeSockets
              (JArr (imap (fun i s =>
                       if Nat.eqb i idx then
                         point
                           (clamp01 (div (sub (clientX me) (left rect)) (width rect)))
                           (clamp01 (div (sub (clientY me) (top rect)) (height rect)))
                       else s) items)))
         w).
Proof. intros Hs. unfold handleMove. rewrite Hs. reflexivity. Qed.

(** The marker a drag moves ends inside [0,1], whatever the pointer
    position, and the other markers stay. *)
Lemma handleMove_keeps_unit (idx : nat) (me : MouseEvent) (rect : DOMRect)
  (w : World) (items : list jsval) (old : jsval) :
  eyeSockets (state w) = JArr items ->
  items !! idx = Some old ->
  is_nan (div (sub (clientX me) (left rect)) (width rect)) = false ->
  is_nan (div (sub (clientY me) (top rect)) (height rect)) = false ->
  exists w' items' x y,
    handleMove idx me rect w = Returns w' /\
    eyeSockets (state w') = JArr items' /\
    items' !! idx = Some (point x y) /\
    x = clamp_to_unit (div (sub (clientX me) (left rect)) (width rect)) /\
    y = clamp_to_unit (div (sub (clientY me) (top rect)) (height rect)) /\
    in_unit x = true /\ in_unit y = true /\
    (forall j, j <> idx -> items' !! j = items !! j).
Proof.
  intros Hs Hidx Hx Hy. rewrite (handleMove_stores_clamped _ _ _ _ _ Hs).
  eexists _, _, _, _. split; [reflexivity|]. split; [reflexivity|].
  rewrite list_lookup_imap, Hidx. cbn [fmap option_fmap option_map].
  rewrite Nat.eqb_refl. split; [reflexivity|].
  rewrite <- !clamp01_spec by assumption.
  repeat split; try now apply clamp01_in_unit.
  intros j Hj. rewrite list_lookup_imap.
  destruct (items !! j) as [s|]; [|reflexivity]. simpl.
  now rewrite (proj2 (Nat.eqb_neq j idx) Hj).
Qed.

(** C1, on the code: [handleImageClick] does not clamp. A click reported at
    [clientX = 100] on a container whose left edge is at 100.4 stores the
    negative quotient itself, about -0.00057, where clamping to [0,1] gives
    0; the sibling [handleMove] clamps ([handleMove_stores_clamped],
    [clamp01_spec]). *)
Theorem click_at_edge_stored_unclamped :
  handleImageClick Sample.click_at_edge Sample.rect Sample.uploaded
  = Returns
      (upd (setEyeSockets (JArr [point Sample.edge_x Sample.edge_y]))
         Sample.uploaded)
  /\ Sample.edge_x = S754_finite true 5270498306774233 (-63)
  /\ ltb Sample.edge_x zero = true
  /\ in_unit Sample.edge_x = false
  /\ clamp_to_unit Sample.edge_x = zero.
Proof. repeat split; vm_compute; reflexivity. Qed.

(** ** Saving and loading a slot *)

(** C2: saving a scene that has an image to one of the slots 1 to 6 and
    then loading that slot gives back the image, the points and the lock
    flag of the saved scene, with the slot as the active slot. The load
    takes them from the stored profile and the stored image: it gives the
    saved scene in every later state of the component whose registry and
    database are those the save left, whatever image, points, lock flag and
    active slot that state holds. *)
Theorem save_then_load (now : timestamp) (slot : N) (w : World)
  (pts : list jsval) (b : bool) :
  (1 <= slot <= 6)%N ->
  truthy (imageData (state w)) = true ->
  eyeSockets (state w) = JArr pts ->
  locked (state w) = JBool b ->
  exists w1,
    saveSlot storage_ok now (state w) slot w = Returns w1 /\
    get_prop (profiles (state w1)) (slot_key slot)
    = Returns (make_profile slot pts (JBool b) now) /\
    forall later : World,
      profiles (state later) = profiles (state w1) ->
      db later = db w1 ->
      exists w2,
        loadSlot storage_ok (state later) slot later = Returns w2 /\
        imageData (state w2) = imageData (state w) /\
        eyeSockets (state w2) = JArr pts /\
        locked (state w2) = JBool b /\
        activeSlot (state w2) = Some slot.
Proof.
  intros _ Hi Hs Hl. unfold saveSlot. rewrite Hi, Hs, Hl. simpl. run.
  eexists. split; [reflexivity|].
  assert (Hentry : forall r,
             get_prop
               (JObj (set_prop r (slot_key slot)
                        (make_profile slot pts (JBool b) now)))
               (slot_key slot)
             = Returns (make_profile slot pts (JBool b) now)).
  { intros r. simpl. now rewrite assoc_set_prop. }
  split; [apply Hentry|].
  intros later Hregistry Hdb. unfold loadSlot. rewrite Hregistry.
  cbn [flash upd with_db state profiles setProfiles setActiveSlot setStatusMsg].
  rewrite Hentry. run. simpl. run.
  unfold dbGet. rewrite Hdb. simpl. rewrite lookup_insert_eq. run.
  rewrite Hi. run. eexists. split; [reflexivity|]. simpl.
  destruct b; auto.
Qed.

Lemma save_then_load_witness :
  (1 <= 1 <= 6)%N /\
  truthy (imageData (state Sample.locked_scene)) = true /\
  exists w1 w2,
    saveSlot storage_ok Sample.now (state Sample.locked_scene) 1
      Sample.locked_scene = Returns w1 /\
    scene (state (handleFileChange (Some Sample.other_url) w1))
    = (JStr Sample.other_url, JArr [], JBool false, None) /\
    loadSlot storage_ok (state (handleFileChange (Some Sample.other_url) w1)) 1
      (handleFileChange (Some Sample.other_url) w1) = Returns w2 /\
    imageData (state w2) = Sample.portrait /\
    eyeSockets (state w2) = JArr [Sample.left_eye; Sample.right_eye] /\
    locked (state w2) = JBool true /\
    activeSlot (state w2) = Some 1%N.
Proof.
  assert (Hslot : (1 <= 1 <= 6)%N) by (split; discriminate).
  split; [exact Hslot|]. split; [reflexivity|].
  destruct (save_then_load Sample.now 1 Sample.locked_scene
              [Sample.left_eye; Sample.right_eye] true Hslot
              eq_refl eq_refl eq_refl) as (w1 & Hsave & _ & Hload).
  destruct (Hload (handleFileChange (Some Sample.other_url) w1)
              eq_refl eq_refl) as (w2 & Hw2).
  exists w1, w2. split; [exact Hsave|]. split; [reflexivity|]. exact Hw2.
Defined.

(** The same after a different portrait was uploaded in between: loading
    needs only the registry and the image store of the save. *)
Lemma load_after_upload (now : timestamp) (slot : N) (w : World)
  (pts : list jsval) (b : bool) (url : string) :
  truthy (imageData (state w)) = true ->
  eyeSockets (state w) = JArr pts ->
  locked (state w) = JBool b ->
  exists w1 w2,
    saveSlot storage_ok now (state w) slot w = Returns w1 /\
    scene (state (handleFileChange (Some url) w1))
    = (JStr url, JArr [], JBool false, None) /\
    loadSlot storage_ok (state (handleFileChange (Some url) w1)) slot
      (handleFileChange (Some url) w1) = Returns w2 /\
    scene (state w2) = (imageData (state w), JArr pts, JBool b, Some slot).
Proof.
  intros Hi Hs Hl. unfold saveSlot. rewrite Hi, Hs, Hl. simpl. run.
  eexists. eexists. split; [reflexivity|]. split; [reflexivity|].
  unfold loadSlot. simpl.
  rewrite assoc_set_prop. run. simpl. run.
  unfold dbGet. simpl. rewrite lookup_insert_eq. run.
  rewrite Hi. run. split; [reflexivity|]. unfold scene. simpl.
  destruct b; auto.
Qed.

(** The scenario of the specification, run through the handlers: upload,
    two clicks, lock, save to slot 1, upload of another portrait, load of
    slot 1. *)
Example upload_mark_lock_save_reload :
  exists w1 w2 w3 w4 pts,
    handleImageClick (mkMouse (of_Z 345) (of_Z 428)) Sample.plain_rect
      Sample.uploaded = Returns w1 /\
    handleImageClick (mkMouse (of_Z 555) (of_Z 428)) Sample.plain_rect w1
    = Returns w2 /\
    eyeSockets (state w2) = JArr pts /\
    forallb valid_point pts = true /\
    saveSlot storage_ok Sample.now (state (toggleLock w2)) 1 (toggleLock w2)
    = Returns w3 /\
    scene (state (handleFileChange (Some Sample.other_url) w3))
    = (JStr Sample.other_url, JArr [], JBool false, None) /\
    loadSlot storage_ok (state (handleFileChange (Some Sample.other_url) w3)) 1
      (handleFileChange (Some Sample.other_url) w3) = Returns w4 /\
    scene (state w4) = (Sample.portrait, JArr pts, JBool true, Some 1%N).
Proof.
  do 5 eexists.
  do 7 (split; [vm_compute; reflexivity|]). vm_compute; reflexivity.
Qed.

(** ** Import *)

(** C3, on the code: a document that parses is taken whatever its shape.
    Importing [{"7": {"slot": 7}}] over a registry that holds slot 1 reports
    success and replaces the registry, in the state and in the store. *)
Lemma import_accepts_stray_document :
  valid_registry (json_value Sample.stray_document) = false /\
  statusMsg (state Sample.after_stray_import) = "Profiles imported" /\
  profiles (state Sample.stored1) = Sample.registry1 /\
  profiles (state Sample.after_stray_import)
  = JObj [("7", JObj [("slot", JNum (of_Z 7))])] /\
  profiles_store (db Sample.stored1) !! "allProfiles" = Some Sample.registry1 /\
  profiles_store (db Sample.after_stray_import) !! "allProfiles"
  = Some (JObj [("7", JObj [("slot", JNum (of_Z 7))])]).
Proof. repeat split; vm_compute; reflexivity. Qed.

(** C3, as the code has it: an import is all or nothing. A text that is not
    JSON, or a store that fails the write, gives ["Invalid profile file"] and
    leaves the state and the database as they were; every JSON document
    replaces the whole registry, in the store and in the state, and nothing
    else. *)
Theorem import_all_or_nothing (io : io_result) (text : file_text) (w : World) :
  let w' := importProfiles io (Some text) w in
  match JSON_parse text, io with
  | Returns data, IoDone =>
      statusMsg (state w') = "Profiles imported" /\
      profiles (state w') = data /\
      profiles_store (db w')
      = <["allProfiles" := data]> (profiles_store (db w)) /\
      images (db w') = images (db w) /\
      scene (state w') = scene (state w)
  | _, _ => w' = flash "Invalid profile file" w
  end.
Proof. destruct text as [doc|], io; simpl; repeat split. Qed.

(** ** Saving without an image, and keys that name no slot *)

(** The comparisons [e.key >= "1" && e.key <= "6"] fail for a key that does
    not begin with one of the digits 1 to 6. *)
Lemma no_slot_key_fails_gate (k : string) :
  names_no_slot k = true -> String.leb "1" k && String.leb k "6" = false.
Proof.
  destruct k as [|c rest]; [reflexivity|]. unfold names_no_slot.
  destruct c as [[] [] [] [] [] [] [] []]; intros H;
    first [ discriminate H | reflexivity ].
Qed.

(** The delete branch of [handleKeyDown] changes the points and the hovered
    marker at most. *)
Lemma delete_hovered_frame (snap : State) (e : KeyboardEvent) (w w' : World) :
  delete_hovered snap e w = Returns w' ->
  db w' = db w /\
  profiles (state w') = profiles (state w) /\
  imageData (state w') = imageData (state w) /\
  locked (state w') = locked (state w) /\
  activeSlot (state w') = activeSlot (state w) /\
  statusMsg (state w') = statusMsg (state w).
Proof.
  unfold delete_hovered. destruct (hoverSocket snap) as [idx|];
    [|now intros [= <-]].
  destruct ((String.eqb (code e) "Backspace" || String.eqb (code e) "Delete")
            && negb (truthy (locked snap))); [|now intros [= <-]].
  destruct (remove_at idx (eyeSockets (state w))); run; [|discriminate].
  now intros [= <-].
Qed.

(** C4, on the code: no save reports an invalid slot. Shift with the key 7,
    on a scene that has an image, returns normally with the component as it
    was: nothing is written and nothing is reported, the status message
    staying empty. *)
Lemma shift_7_reports_nothing :
  truthy (imageData (state Sample.editing)) = true /\
  shiftKey Sample.shift_7 = true /\
  statusMsg (state Sample.editing) = "" /\
  handleKeyDown storage_ok Sample.now Sample.shift_7 Sample.editing
  = Returns Sample.editing.
Proof. repeat split. Qed.

(** C4, as the code has it: without an image [saveSlot] only reports
    ["No image loaded"], and the database, the scene and the registry stay
    as they were. There is no report of an invalid slot: the keyboard
    handler, the only caller of [saveSlot], calls it for no key that names
    no slot. Such a key leaves the database, the registry, the image, the
    lock flag, the active slot and the status message as they were, and
    the whole component when the key is none of Space, Backspace and
    Delete. *)
Theorem saveSlot_checks_image_only (io : Storage) (now : timestamp)
  (w : World) :
  (forall slot,
     truthy (imageData (state w)) = false ->
     saveSlot io now (state w) slot w = Returns (flash "No image loaded" w) /\
     db (flash "No image loaded" w) = db w /\
     scene (state (flash "No image loaded" w)) = scene (state w) /\
     profiles (state (flash "No image loaded" w)) = profiles (state w)) /\
  (forall e,
     names_no_slot (key e) = true ->
     (forall w',
        handleKeyDown io now e w = Returns w' ->
        db w' = db w /\
        profiles (state w') = profiles (state w) /\
        imageData (state w') = imageData (state w) /\
        locked (state w') = locked (state w) /\
        activeSlot (state w') = activeSlot (state w) /\
        statusMsg (state w') = statusMsg (state w)) /\
     (String.eqb (code e) "Space" = false ->
      String.eqb (code e) "Backspace" = false ->
      String.eqb (code e) "Delete" = false ->
      handleKeyDown io now e w = Returns w)).
Proof.
  split.
  - intros slot Hi. unfold saveSlot. rewrite Hi. cbn [negb]. auto.
  - intros e Hkey. apply no_slot_key_fails_gate in Hkey.
    unfold handleKeyDown, slot_hotkey. rewrite Hkey. cbn [andb]. split.
    + intros w'.
      destruct (delete_hovered (state w) e
                  (if String.eqb (code e) "Space" && negb (repeat e)
                   then upd (setGlowIntensity one) w else w))
        as [w2|] eqn:Hdel; run; [|discriminate].
      intros [= <-]. apply delete_hovered_frame in Hdel.
      now destruct (String.eqb (code e) "Space" && negb (repeat e)).
    + intros Hspace Hback Hdel. unfold delete_hovered.
      rewrite Hspace, Hback, Hdel. cbn [andb orb].
      now destruct (hoverSocket (state w)).
Qed.

Lemma saveSlot_checks_image_only_witness :
  (truthy (imageData (state Sample.fresh)) = false /\
   saveSlot storage_ok Sample.now (state Sample.fresh) 3 Sample.fresh
   = Returns (flash "No image loaded" Sample.fresh) /\
   db (flash "No image loaded" Sample.fresh) = db Sample.fresh /\
   scene (state (flash "No image loaded" Sample.fresh))
   = scene (state Sample.fresh) /\
   profiles (state (flash "No image loaded" Sample.fresh))
   = profiles (state Sample.fresh)) /\
  (names_no_slot (key Sample.shift_7) = true /\
   handleKeyDown storage_ok Sample.now Sample.shift_7 Sample.editing
   = Returns Sample.editing) /\
  (names_no_slot (key Sample.delete_key) = true /\
   exists w',
     handleKeyDown storage_ok Sample.now Sample.delete_key
       (upd (setHoverSocket (Some 0%nat)) Sample.editing) = Returns w' /\
     db w' = db Sample.editing /\
     statusMsg (state w') = "").
Proof.
  split; [|split]; (split; [reflexivity|]).
  - exact (proj1 (saveSlot_checks_image_only storage_ok Sample.now
                    Sample.fresh) 3%N eq_refl).
  - exact (proj2 (proj2 (saveSlot_checks_image_only storage_ok Sample.now
                           Sample.editing) Sample.shift_7 eq_refl)
             eq_refl eq_refl eq_refl).
  - eexists. split; [reflexivity|].
    destruct (proj1 (proj2 (saveSlot_checks_image_only storage_ok Sample.now
                              (upd (setHoverSocket (Some 0%nat)) Sample.editing))
                       Sample.delete_key eq_refl) _ eq_refl)
      as (Hdb & _ & _ & _ & _ & Hmsg).
    split; [exact Hdb|exact Hmsg].
Defined.

(** The only caller of [saveSlot] is the keyboard handler, and for a key of
    one character it passes a slot from 1 to 6 or does nothing. *)
Lemma slot_hotkey_one_character (io : Storage) (now : timestamp) (snap : State)
  (e : KeyboardEvent) (w : World) (c : ascii) :
  key e = String c EmptyString ->
  slot_hotkey io now snap e w = Returns w \/
  exists slot,
    (1 <= slot <= 6)%N /\
    slot_hotkey io now snap e w =
      if shiftKey e then saveSlot io now snap slot w
      else loadSlot io snap slot w.
Proof.
  intros Hk. unfold slot_hotkey. rewrite Hk.
  destruct (repeat e); [left; now rewrite andb_false_r|].
  destruct c as [[] [] [] [] [] [] [] []];
    first [ left; reflexivity
          | right; eexists; split; [|reflexivity]; cbv; split; discriminate ].
Qed.

(** ** Errors of loading *)

Lemma get_prop_object (f : list (string * jsval)) (k : string) :
  get_prop (JObj f) k
  = Returns (match assoc f k with Some x => x | None => JUndefined end).
Proof. simpl. now destruct (assoc f k). Qed.

Lemma empty_is_not_missing (slot : N) :
  "Slot " +:+ pretty slot +:+ " is empty"
  <> "Image missing for slot " +:+ pretty slot.
Proof. discriminate. Qed.

Lemma loaded_is_not_empty (slot : N) :
  "Loaded slot " +:+ pretty slot <> "Slot " +:+ pretty slot +:+ " is empty".
Proof. discriminate. Qed.

Lemma loaded_is_not_missing (slot : N) :
  "Loaded slot " +:+ pretty slot <> "Image missing for slot " +:+ pretty slot.
Proof. discriminate. Qed.

Lemma assoc_In (o : list (string * jsval)) (k : string) (v : jsval) :
  assoc o k = Some v -> In (k, v) o.
Proof.
  induction o as [|[k' v'] o IH]; simpl; [discriminate|].
  destruct (String.eqb k' k) eqn:E; [|auto].
  apply String.eqb_eq in E. intros [= ->]. subst. now left.
Qed.

Lemma has_key_assoc (o : list (string * jsval)) (k : string) :
  has_key o k = true -> exists v, assoc o k = Some v.
Proof.
  induction o as [|[k' v'] o IH]; simpl; [discriminate|].
  destruct (String.eqb k' k); simpl; eauto.
Qed.

(** In a valid registry the entry of a slot is absent or a profile with its
    image key. *)
Lemma valid_registry_entry (r : jsval) (slot : N) :
  valid_registry r = true ->
  exists entry,
    get_prop r (slot_key slot) = Returns entry /\
    (entry = JUndefined \/
     exists f k, entry = JObj f /\ assoc f "imageKey" = Some (JStr k)).
Proof.
  destruct r as [| |?|?|?|?|entries]; try discriminate.
  intros [Hentries _]%andb_true_iff. rewrite get_prop_object.
  eexists. split; [reflexivity|].
  destruct (assoc entries (slot_key slot)) as [p|] eqn:Hp; [right|now left].
  apply assoc_In in Hp. rewrite forallb_forall in Hentries.
  specialize (Hentries _ Hp). unfold registry_entry in Hentries.
  cbn [fst snd] in Hentries.
  destruct (array_index (slot_key slot)) as [n|]; [|discriminate].
  apply andb_true_iff in Hentries as [_ Hvalid].
  destruct p as [| |?|?|?|?|f]; try discriminate.
  simpl in Hvalid. do 3 (apply andb_true_iff in Hvalid as [Hvalid _]).
  apply andb_true_iff in Hvalid as [Hvalid Hkey].
  do 2 (apply andb_true_iff in Hvalid as [Hvalid _]).
  apply has_key_assoc in Hkey as [x Hx].
  rewrite forallb_forall in Hvalid.
  specialize (Hvalid _ (assoc_In _ _ _ Hx)). simpl in Hvalid.
  destruct x; try discriminate. eauto.
Qed.

(** What [saveSlot] puts into the image store is an image. *)
Lemma saveSlot_keeps_images (io : Storage) (now : timestamp) (slot : N)
  (w w' : World) :
  (forall k img, images (db w) !! k = Some img -> truthy img = true) ->
  saveSlot io now (state w) slot w = Returns w' ->
  forall k img, images (db w') !! k = Some img -> truthy img = true.
Proof.
  intros Himg. unfold saveSlot.
  destruct (truthy (imageData (state w))) eqn:Hi; cbn [negb].
  2:{ now intros [= <-]. }
  destruct (array_spread (eyeSockets (state w))); run; [|discriminate].
  unfold dbPut. destruct (put_image io); run; [|now intros [= <-]].
  assert (Hnew : forall k img,
             <[img_slot slot := imageData (state w)]> (images (db w)) !! k
             = Some img -> truthy img = true).
  { intros k img. rewrite lookup_insert. case_decide; [congruence|eauto]. }
  destruct (put_profiles io); run; now intros [= <-].
Qed.

(** Reading a property of a truthy value does not throw. *)
Lemma get_prop_truthy (v : jsval) (k : string) :
  truthy v = true -> exists x, get_prop v k = Returns x.
Proof.
  destruct v as [| |b|n|s|items|props]; cbn [get_prop truthy];
    try discriminate; intros _; eauto.
  - destruct (String.eqb k "length"); [eauto|].
    destruct (array_index k); eauto.
  - destruct (String.eqb k "length"); [eauto|].
    destruct (array_index k); eauto.
  - destruct (assoc props k); eauto.
Qed.

Lemma failed_is_no_slot_message (slot : N) :
  "Load failed" <> "Slot " +:+ pretty slot +:+ " is empty" /\
  "Load failed" <> "Image missing for slot " +:+ pretty slot /\
  "Load failed" <> "Loaded slot " +:+ pretty slot.
Proof. repeat split; discriminate. Qed.

Ltac wrong_message :=
  match goal with
  | H : _ = _ |- _ =>
      first [ now apply loaded_is_not_empty in H
            | now apply loaded_is_not_missing in H
            | now apply empty_is_not_missing in H
            | symmetry in H; now apply empty_is_not_missing in H
            | now apply failed_is_no_slot_message in H
            | symmetry in H; now apply failed_is_no_slot_message in H ]
  | H : _ \/ _ |- _ => destruct H; wrong_message
  end.

(** C5, on the code: a profile without an image key. After the import of a
    registry file whose profile of slot 1 has no [imageKey], the slot has a
    profile and the image store has no image for it, and [loadSlot] reports
    neither the empty slot nor the missing image but ["Load failed"]: the
    read with the key [undefined] is rejected. *)
Lemma keyless_profile_reports_load_failed :
  get_prop (profiles (state Sample.keyless_import)) (slot_key 1)
  = Returns (JObj [("slot", JNum (of_Z 1))]) /\
  images (db Sample.keyless_import) = ∅ /\
  loadSlot storage_ok (state Sample.keyless_import) 1 Sample.keyless_import
  = Returns (flash "Load failed" Sample.keyless_import) /\
  "Load failed" <> "Image missing for slot 1" /\
  "Load failed" <> "Slot 1 is empty".
Proof. repeat split; discriminate. Qed.

(** C5, as the code has it, for every registry and every entry. Where
    reading the entry of the slot throws (the registry is [null]), so does
    [loadSlot]. Otherwise [loadSlot] returns, and it reports the empty slot
    exactly when the entry is falsy (there is none, or it is [null]); the
    missing image, a different report, exactly when the entry is truthy and
    the read of the image store under its [imageKey] resolves with a falsy
    value (nothing is stored under the key); and ["Load failed"], a third
    report, exactly when the entry is truthy and that read is rejected (the
    request fails, or the [imageKey] is no key of the store, as when the
    entry has none). With each of the three reports the scene, the registry
    and the database stay as they were. *)
Theorem loadSlot_errors (io : Storage) (slot : N) (w : World) :
  match get_prop (profiles (state w)) (slot_key slot) with
  | Throws e => loadSlot io (state w) slot w = Throws e
  | Returns entry =>
      exists w',
        loadSlot io (state w) slot w = Returns w' /\
        (statusMsg (state w') = "Slot " +:+ pretty slot +:+ " is empty"
         <-> truthy entry = false) /\
        (statusMsg (state w') = "Image missing for slot " +:+ pretty slot
         <-> truthy entry = true /\
             exists key img,
               get_prop entry "imageKey" = Returns key /\
               dbGet (get_image io) IMG_STORE key (db w) = Returns img /\
               truthy img = false) /\
        (statusMsg (state w') = "Load failed"
         <-> truthy entry = true /\
             exists key e,
               get_prop entry "imageKey" = Returns key /\
               dbGet (get_image io) IMG_STORE key (db w) = Throws e) /\
        (statusMsg (state w') = "Slot " +:+ pretty slot +:+ " is empty" \/
         statusMsg (state w') = "Image missing for slot " +:+ pretty slot \/
         statusMsg (state w') = "Load failed" ->
         scene (state w') = scene (state w) /\
         profiles (state w') = profiles (state w) /\ db w' = db w) /\
        "Slot " +:+ pretty slot +:+ " is empty"
        <> "Image missing for slot " +:+ pretty slot
  end.
Proof.
  unfold loadSlot.
  destruct (get_prop (profiles (state w)) (slot_key slot)) as [entry|e]; run;
    [|reflexivity].
  destruct (truthy entry) eqn:Ht; cbn [negb].
  2:{ eexists. split; [reflexivity|].
      cbn [flash upd state statusMsg setStatusMsg].
      repeat split; auto; try discriminate; intros; try wrong_message;
        match goal with H : _ /\ _ |- _ => destruct H; discriminate end. }
  destruct (get_prop_truthy entry "imageKey" Ht) as [key Hkey].
  destruct (get_prop_truthy entry "eyeSockets" Ht) as [sockets Hsockets].
  destruct (get_prop_truthy entry "locked" Ht) as [lock Hlock].
  rewrite Hkey, Hsockets, Hlock. run.
  destruct (dbGet (get_image io) IMG_STORE key (db w)) as [img|e] eqn:Hget; run.
  - destruct (truthy img) eqn:Hi; run; (eexists; split; [reflexivity|]);
      cbn [flash upd state statusMsg setStatusMsg setActiveSlot];
      repeat split; auto; try discriminate; intros; try wrong_message;
      repeat match goal with
             | H : _ /\ _ |- _ => destruct H
             | H : exists _, _ |- _ => destruct H
             end;
      try congruence; eauto.
  - eexists. split; [reflexivity|].
    cbn [flash upd state statusMsg setStatusMsg].
    repeat split; auto; try discriminate; intros; try wrong_message;
      repeat match goal with
             | H : _ /\ _ |- _ => destruct H
             | H : exists _, _ |- _ => destruct H
             end;
      try congruence; eauto.
Qed.

(** A read that fails is the third report, and changes nothing either. *)
Lemma loadSlot_read_fails (io : Storage) (slot : N) (w : World)
  (f : list (string * jsval)) :
  get_image io = IoFails ->
  get_prop (profiles (state w)) (slot_key slot) = Returns (JObj f) ->
  loadSlot io (state w) slot w = Returns (flash "Load failed" w).
Proof.
  intros Hio Hentry. unfold loadSlot. rewrite Hentry. run.
  cbn [truthy negb]. rewrite !get_prop_object. run.
  unfold dbGet. rewrite Hio. reflexivity.
Qed.

Lemma loadSlot_errors_witness :
  get_prop (profiles (state Sample.dangling1)) (slot_key 1)
  = Returns (Sample.profile_of 1) /\
  exists w',
    loadSlot storage_ok (state Sample.dangling1) 1 Sample.dangling1
    = Returns w' /\
    statusMsg (state w') = "Image missing for slot 1" /\
    scene (state w') = scene (state Sample.dangling1).
Proof.
  split; [reflexivity|].
  pose proof (loadSlot_errors storage_ok 1 Sample.dangling1) as H.
  change (get_prop (profiles (state Sample.dangling1)) (slot_key 1))
    with (Returns (Sample.profile_of 1) : outcome jsval) in H.
  destruct H as (w' & Hload & _ & Hmissing & _ & Hsame & _).
  exists w'. split; [exact Hload|].
  assert (Hmsg : statusMsg (state w') = "Image missing for slot 1").
  { apply Hmissing. split; [reflexivity|].
    exists (JStr "img_slot_1"), JUndefined. repeat split. }
  split; [exact Hmsg|]. apply Hsame. right. left. exact Hmsg.
Defined.

(** ** The order of the two writes of a save *)

(** C6: a save of a scene whose points are a list ends normally, and if
    its image write fails, the database and the registry are as they were;
    whenever it has changed the registry, in the store or in the state, its
    image write had succeeded and the image is in the store under the key
    of the slot. *)
Theorem saveSlot_image_before_registry (io : Storage) (now : timestamp)
  (slot : N) (w : World) (pts : list jsval) :
  eyeSockets (state w) = JArr pts ->
  exists w',
    saveSlot io now (state w) slot w = Returns w' /\
    (put_image io = IoFails ->
     db w' = db w /\ profiles (state w') = profiles (state w)) /\
    (profiles_store (db w') <> profiles_store (db w) \/
     profiles (state w') <> profiles (state w) ->
     put_image io = IoDone /\
     images (db w') !! img_slot slot = Some (imageData (state w))).
Proof.
  intros Hs. unfold saveSlot. rewrite Hs.
  destruct (truthy (imageData (state w))); cbn [negb array_spread]; run.
  2:{ eexists. split; [reflexivity|]. split; [auto|].
      intros [H|H]; now destruct H. }
  unfold dbPut.
  destruct (put_image io); run.
  2:{ eexists. split; [reflexivity|]. split; [auto|].
      intros [H|H]; now destruct H. }
  destruct (put_profiles io); run; eexists; (split; [reflexivity|]);
    (split; [discriminate|]); intros _; (split; [reflexivity|]); simpl;
    apply lookup_insert_eq.
Qed.

Lemma saveSlot_image_before_registry_witness :
  eyeSockets (state Sample.editing) = JArr [Sample.left_eye; Sample.right_eye]
  /\ put_image Sample.failing_image_write = IoFails
  /\ exists w',
       saveSlot Sample.failing_image_write Sample.now (state Sample.editing) 1
         Sample.editing = Returns w' /\
       db w' = db Sample.editing /\
       profiles (state w') = profiles (state Sample.editing).
Proof.
  split; [reflexivity|]. split; [reflexivity|].
  destruct (saveSlot_image_before_registry Sample.failing_image_write
              Sample.now 1 Sample.editing
              [Sample.left_eye; Sample.right_eye] eq_refl)
    as (w' & Hsave & Hfail & _).
  exists w'. split; [exact Hsave|]. exact (Hfail eq_refl).
Defined.

(** ** Profiles with missing fields *)

(** C10: when the profile of the slot lacks [eyeSockets] or [locked], or
    holds [null] there, a load that finds the image succeeds all the same,
    with no points for the one and unlocked for the other. *)
Theorem loadSlot_defaults (io : Storage) (slot : N) (w : World)
  (f : list (string * jsval)) (key img : jsval) :
  get_prop (profiles (state w)) (slot_key slot) = Returns (JObj f) ->
  get_prop (JObj f) "imageKey" = Returns key ->
  dbGet (get_image io) IMG_STORE key (db w) = Returns img ->
  truthy img = true ->
  exists w',
    loadSlot io (state w) slot w = Returns w' /\
    statusMsg (state w') = "Loaded slot " +:+ pretty slot /\
    imageData (state w') = img /\
    activeSlot (state w') = Some slot /\
    (assoc f "eyeSockets" = None \/ assoc f "eyeSockets" = Some JNull \/
     assoc f "eyeSockets" = Some JUndefined ->
     eyeSockets (state w') = JArr []) /\
    (assoc f "locked" = None \/ assoc f "locked" = Some JNull \/
     assoc f "locked" = Some JUndefined ->
     locked (state w') = JBool false).
Proof.
  intros Hentry Hkey Hget Himg. unfold loadSlot. rewrite Hentry. run.
  cbn [truthy negb]. rewrite Hkey. run. rewrite Hget. run. rewrite Himg.
  rewrite !get_prop_object. run.
  eexists. split; [reflexivity|]. simpl.
  repeat split; intros [->|[-> | ->]]; reflexivity.
Qed.

Lemma loadSlot_defaults_witness :
  truthy Sample.portrait = true /\
  exists w',
    loadSlot storage_ok (state Sample.bare_world) 1 Sample.bare_world
    = Returns w' /\
    statusMsg (state w') = "Loaded slot 1" /\
    imageData (state w') = Sample.portrait /\
    activeSlot (state w') = Some 1%N /\
    eyeSockets (state w') = JArr [] /\
    locked (state w') = JBool false.
Proof.
  split; [reflexivity|].
  destruct (loadSlot_defaults storage_ok 1 Sample.bare_world
              Sample.bare_profile (JStr "img_slot_1") Sample.portrait
              eq_refl eq_refl eq_refl eq_refl)
    as (w' & Hload & Hmsg & Himg & Hslot & Hpts & Hlock).
  exists w'. repeat split; try assumption.
  - apply Hpts. left. reflexivity.
  - apply Hlock. right. left. reflexivity.
Defined.

(** ** Export and import of a registry *)

(** X25: saving a valid scene to one of the six slots keeps the registry
    valid, and stores it. *)
Lemma saveSlot_keeps_registry_valid (now : timestamp) (slot : N) (w : World)
  (pts : list jsval) (b : bool) :
  valid_registry (profiles (state w)) = true ->
  (1 <= slot <= 6)%N ->
  truthy (imageData (state w)) = true ->
  eyeSockets (state w) = JArr pts ->
  forallb valid_point pts = true ->
  locked (state w) = JBool b ->
  exists w',
    saveSlot storage_ok now (state w) slot w = Returns w' /\
    valid_registry (profiles (state w')) = true /\
    profiles_store (db w') !! "allProfiles" = Some (profiles (state w')).
Proof.
  intros Hreg Hslot Hi Hs Hpts Hl. unfold saveSlot. rewrite Hi, Hs, Hl.
  cbn [negb]. run. eexists. split; [reflexivity|]. simpl.
  rewrite lookup_insert_eq. split; [|reflexivity].
  destruct (profiles (state w)) as [| |?|?|?|?|entries]; try discriminate.
  simpl in Hreg. apply andb_true_iff in Hreg as [Hentries Hord]. simpl.
  rewrite set_prop_ordered, forallb_set_prop; auto.
  now apply registry_entry_made.
Qed.

(** C7: for a valid registry, the exported document reads back as the
    registry itself, and importing it makes it the registry of the state
    and of the store. *)
Theorem export_import_roundtrip (w w0 : World) :
  valid_registry (profiles (state w)) = true ->
  JSON_parse (fst (exportProfiles w)) = Returns (profiles (state w)) /\
  profiles (state (importProfiles IoDone (Some (fst (exportProfiles w))) w0))
  = profiles (state w) /\
  profiles_store (db (importProfiles IoDone (Some (fst (exportProfiles w))) w0))
    !! "allProfiles" = Some (profiles (state w)).
Proof.
  intros Hvalid. apply valid_registry_safe, stringify_text_parse in Hvalid.
  unfold exportProfiles, importProfiles. cbn [fst]. rewrite Hvalid. run.
  unfold dbPut. run. simpl. rewrite lookup_insert_eq. auto.
Qed.

(** Registries with no, one and six occupied slots. *)
Lemma export_import_roundtrip_witness :
  (valid_registry Sample.registry0 = true /\
   JSON_parse (fst (exportProfiles (Sample.with_registry Sample.registry0)))
   = Returns Sample.registry0) /\
  (valid_registry Sample.registry1 = true /\
   JSON_parse (fst (exportProfiles (Sample.with_registry Sample.registry1)))
   = Returns Sample.registry1) /\
  (valid_registry Sample.registry6 = true /\
   JSON_parse (fst (exportProfiles (Sample.with_registry Sample.registry6)))
   = Returns Sample.registry6).
Proof.
  split; [|split]; (split; [reflexivity|]).
  - exact (proj1 (export_import_roundtrip
                    (Sample.with_registry Sample.registry0) Sample.fresh eq_refl)).
  - exact (proj1 (export_import_roundtrip
                    (Sample.with_registry Sample.registry1) Sample.fresh eq_refl)).
  - exact (proj1 (export_import_roundtrip
                    (Sample.with_registry Sample.registry6) Sample.fresh eq_refl)).
Defined.

(** ** Editing a locked scene *)

(** C8, on the code: nothing reports a refused edit. On the locked scene a
    click on the portrait, a press on a marker and the delete key all return
    normally and leave the whole world, status message included, exactly as
    it was. *)
Lemma locked_edits_report_nothing :
  truthy (locked (state Sample.locked_hovering)) = true /\
  handleImageClick Sample.click_inside Sample.rect Sample.locked_hovering
  = Returns Sample.locked_hovering /\
  handleSocketMouseDown 0 Sample.locked_hovering = Sample.locked_hovering /\
  handleKeyDown storage_ok Sample.now Sample.delete_key Sample.locked_hovering
  = Returns Sample.locked_hovering.
Proof. repeat split. Qed.

(** C8, as the code has it: on a locked scene, placing a point, starting a
    drag (so that no later [mousemove] moves a marker) and deleting the
    hovered marker are silent no-ops: they return normally with the world
    unchanged. *)
Theorem locked_edits_are_silent_noops (e me : MouseEvent) (rect : DOMRect)
  (idx : nat) (ke : KeyboardEvent) (w : World) :
  truthy (locked (state w)) = true ->
  handleImageClick e rect w = Returns w /\
  handleSocketMouseDown idx w = w /\
  (drag_listeners w = [] ->
   window_mousemove me rect (handleSocketMouseDown idx w) = Returns w) /\
  delete_hovered (state w) ke w = Returns w.
Proof.
  intros Hl. unfold handleImageClick, handleSocketMouseDown, delete_hovered,
    window_mousemove.
  rewrite Hl. cbn [orb negb andb]. repeat split.
  - intros ->. reflexivity.
  - destruct (hoverSocket (state w)); [|reflexivity].
    now rewrite andb_false_r.
Qed.

Lemma locked_edits_are_silent_noops_witness :
  truthy (locked (state Sample.locked_hovering)) = true /\
  handleImageClick Sample.click_inside Sample.rect Sample.locked_hovering
  = Returns Sample.locked_hovering /\
  handleSocketMouseDown 1 Sample.locked_hovering = Sample.locked_hovering /\
  (drag_listeners Sample.locked_hovering = [] ->
   window_mousemove Sample.click_inside Sample.rect
     (handleSocketMouseDown 1 Sample.locked_hovering)
   = Returns Sample.locked_hovering) /\
  delete_hovered (state Sample.locked_hovering) Sample.delete_key
    Sample.locked_hovering = Returns Sample.locked_hovering.
Proof.
  split; [reflexivity|].
  exact (locked_edits_are_silent_noops Sample.click_inside Sample.click_inside
           Sample.rect 1 Sample.delete_key Sample.locked_hovering eq_refl).
Defined.

(** Locking is [setLocked(true)] on an unlocked scene, and touches neither
    the points nor the image. *)
Lemma toggleLock_locks (w : World) :
  truthy (locked (state w)) = false ->
  locked (state (toggleLock w)) = JBool true /\
  eyeSockets (state (toggleLock w)) = eyeSockets (state w) /\
  imageData (state (toggleLock w)) = imageData (state w).
Proof. intros H. unfold toggleLock. simpl. now rewrite H. Qed.

(** A drag that began before the scene was locked goes on moving its
    marker: [handleMove] does not look at the lock. *)
Example drag_in_progress_ignores_lock :
  exists w',
    window_mousemove Sample.click_inside Sample.rect
      (toggleLock (handleSocketMouseDown 1 Sample.editing)) = Returns w' /\
    truthy (locked (state w')) = true /\
    eyeSockets (state w') <> eyeSockets (state Sample.editing).
Proof.
  eexists. split; [vm_compute; reflexivity|]. split; [reflexivity|].
  vm_compute. intros [=].
Qed.

(** ** The shape of a saved profile *)

(** C9, on the code: the points are saved under [eyeSockets]; the entry has
    no property [points]. *)
Lemma saved_profile_has_no_points_field :
  exists w' entry,
    saveSlot storage_ok Sample.now (state Sample.editing) 1 Sample.editing
    = Returns w' /\
    get_prop (profiles (state w')) "1" = Returns entry /\
    profiles_store (db w') !! "allProfiles" = Some (JObj [("1", entry)]) /\
    get_prop entry "points" = Returns JUndefined /\
    get_prop entry "eyeSockets"
    = Returns (JArr [Sample.left_eye; Sample.right_eye]).
Proof. eexists. eexists. repeat split; vm_compute; reflexivity. Qed.

(** C9, as the code has it: the registry entry that a successful save
    writes, in the store and in the state, is
    [{slot, imageKey: "img_slot_<slot>", eyeSockets, locked, savedAt}] with
    the points and the lock flag of the scene; it is a valid profile
    whenever the slot is one of 1..6, the points are valid points and the
    lock flag is a boolean. *)
Theorem saved_profile_shape (now : timestamp) (slot : N) (w : World)
  (pts : list jsval) :
  truthy (imageData (state w)) = true ->
  eyeSockets (state w) = JArr pts ->
  exists w' entry,
    saveSlot storage_ok now (state w) slot w = Returns w' /\
    profiles_store (db w') !! "allProfiles" = Some (profiles (state w')) /\
    get_prop (profiles (state w')) (slot_key slot) = Returns entry /\
    entry = JObj [("slot", JNum (of_Z (Z.of_N slot)));
                  ("imageKey", JStr ("img_slot_" +:+ pretty slot));
                  ("eyeSockets", JArr pts);
                  ("locked", locked (state w));
                  ("savedAt", JStr now)] /\
    (forall b, locked (state w) = JBool b ->
               forallb valid_point pts = true ->
               valid_profile slot entry = true).
Proof.
  intros Hi Hs. unfold saveSlot. rewrite Hi, Hs. cbn [negb]. run.
  eexists. eexists. split; [reflexivity|]. simpl.
  rewrite lookup_insert_eq, assoc_set_prop.
  repeat split. intros b -> Hpts. now apply valid_made_profile.
Qed.

Lemma saved_profile_shape_witness :
  truthy (imageData (state Sample.locked_scene)) = true /\
  exists w' entry,
    saveSlot storage_ok Sample.now (state Sample.locked_scene) 2
      Sample.locked_scene = Returns w' /\
    get_prop (profiles (state w')) "2" = Returns entry /\
    entry = JObj [("slot", JNum (of_Z 2));
                  ("imageKey", JStr "img_slot_2");
                  ("eyeSockets", JArr [Sample.left_eye; Sample.right_eye]);
                  ("locked", JBool true);
                  ("savedAt", JStr Sample.now)] /\
    valid_profile 2 entry = true.
Proof.
  split; [reflexivity|].
  destruct (saved_profile_shape Sample.now 2 Sample.locked_scene
              [Sample.left_eye; Sample.right_eye] eq_refl eq_refl)
    as (w' & entry & Hsave & _ & Hentry & Hshape & Hvalid).
  exists w', entry. repeat split; try assumption.
  apply (Hvalid true); reflexivity.
Defined.
(** * Further properties *)

(** ** Opening the database *)

Lemma contains_spec (name : string) (d : IDBDatabase) :
  contains name d = true <-> is_Some (objectStores d !! name).
Proof. unfold contains. apply bool_decide_eq_true. Qed.

Lemma ensure_lookup (name : string) (d : IDBDatabase) (n : string) :
  objectStores (if contains name d then d else createObjectStore name d) !! n
  = match objectStores d !! n with
    | Some records => Some records
    | None => if bool_decide (n = name) then Some ∅ else None
    end.
Proof.
  destruct (contains name d) eqn:Hc.
  - apply contains_spec in Hc as [records Hc].
    destruct (objectStores d !! n) eqn:Hn; [reflexivity|].
    rewrite bool_decide_eq_false_2; [reflexivity|]. intros ->. congruence.
  - assert (Hnone : objectStores d !! name = None).
    { destruct (objectStores d !! name) eqn:E; [|reflexivity].
      assert (contains name d = true) by (apply contains_spec; eauto).
      congruence. }
    unfold createObjectStore. cbn [objectStores]. rewrite lookup_insert.
    case_decide as Hname.
    + subst n. rewrite Hnone. now rewrite bool_decide_eq_true_2.
    + destruct (objectStores d !! n); [reflexivity|].
      now rewrite bool_decide_eq_false_2 by congruence.
Qed.

Lemma upgrade_lookup (d : IDBDatabase) (name : string) :
  objectStores (onupgradeneeded d) !! name =
    match objectStores d !! name with
    | Some records => Some records
    | None =>
        if bool_decide (name = "images" \/ name = "profiles") then Some ∅
        else None
    end.
Proof.
  unfold onupgradeneeded. cbn [store_id]. rewrite !ensure_lookup.
  destruct (objectStores d !! name); [reflexivity|].
  repeat case_bool_decide; try reflexivity; exfalso; intuition congruence.
Qed.

(** X1: opening a database whose version is not above [DB_VERSION] succeeds
    and leaves it at [DB_VERSION]; every store that was there keeps its
    records, a store of the result that was not there is empty, after an
    upgrade both stores exist, and opening again changes nothing. *)
Theorem openDB_keeps_data (d : IDBDatabase) :
  (idb_version d <= DB_VERSION)%N ->
  exists d',
    openDB d = Returns d' /\
    idb_version d' = DB_VERSION /\
    ((idb_version d < DB_VERSION)%N ->
     contains "images" d' = true /\ contains "profiles" d' = true) /\
    (forall name records,
       objectStores d !! name = Some records ->
       objectStores d' !! name = Some records) /\
    (forall name records,
       objectStores d' !! name = Some records ->
       objectStores d !! name = Some records \/ records = ∅) /\
    openDB d' = Returns d'.
Proof.
  intros Hv. unfold openDB.
  destruct (idb_version d <? DB_VERSION)%N eqn:Hlt.
  - eexists. split; [reflexivity|]. cbn [idb_version objectStores].
    split; [reflexivity|]. split; [|split; [|split]].
    + intros _. rewrite !contains_spec. cbn [objectStores].
      rewrite !upgrade_lookup.
      split; [destruct (objectStores d !! "images")
             |destruct (objectStores d !! "profiles")]; eauto.
    + intros name records H. now rewrite upgrade_lookup, H.
    + intros name records. rewrite upgrade_lookup.
      destruct (objectStores d !! name); [auto|].
      case_bool_decide; [|discriminate]. intros [= <-]. now right.
    + reflexivity.
  - apply N.ltb_ge in Hlt.
    assert (Heq : idb_version d = DB_VERSION) by lia.
    rewrite Heq. cbn. exists d. repeat split; auto; try lia.
    now rewrite Heq.
Qed.

Lemma openDB_keeps_data_witness :
  (idb_version Session.old_database <= DB_VERSION)%N /\
  exists d',
    openDB Session.old_database = Returns d' /\
    idb_version d' = 2%N /\
    objectStores d' !! "images" = Some {["img_slot_1" := Sample.portrait]} /\
    contains "profiles" d' = true.
Proof.
  split; [cbv; discriminate|].
  destruct (openDB_keeps_data Session.old_database)
    as (d' & Hopen & Hver & Hboth & Hkept & _); [cbv; discriminate|].
  exists d'. split; [exact Hopen|]. split; [exact Hver|].
  split; [now apply Hkept|]. apply Hboth. reflexivity.
Defined.

(** ** Put and get with their opening *)

Lemma store_id_lookup (store : store_name) (d : IDBDatabase) (v : DB) :
  stores_of d = Some v ->
  objectStores d !! store_id store = Some (read_store store v).
Proof.
  unfold stores_of. cbn [store_id].
  destruct (objectStores d !! "images") eqn:Hi; [|discriminate].
  destruct (objectStores d !! "profiles") eqn:Hp; [|discriminate].
  intros [= <-]. now destruct store.
Qed.

(** X2: on an opened database, [dbPut] and [dbGet] with their [openDB] do
    to the two stores what [dbPut] and [dbGet] on the stores say, when the
    requests complete. *)
Theorem opening_agrees (store : store_name) (key : string) (k value : jsval)
  (d : IDBDatabase) (v : DB) :
  idb_version d = DB_VERSION ->
  stores_of d = Some v ->
  (exists d1 v1,
     put_opening store key value d = Returns d1 /\
     dbPut IoDone store key value v = Returns v1 /\
     stores_of d1 = Some v1 /\ idb_version d1 = DB_VERSION) /\
  match dbGet IoDone store k v with
  | Returns x => get_opening store k d = Returns (x, d)
  | Throws e => get_opening store k d = Throws e
  end.
Proof.
  intros Hv Hs. pose proof (store_id_lookup store d v Hs) as Hl.
  assert (Hopen : openDB d = Returns d).
  { unfold openDB. now rewrite Hv. }
  split.
  - unfold put_opening. rewrite Hopen. run. rewrite Hl.
    eexists _, _. split; [reflexivity|]. split; [reflexivity|].
    split; [|exact Hv]. unfold stores_of in *. cbn [objectStores store_id] in *.
    destruct (objectStores d !! "images") eqn:Hi; [|discriminate].
    destruct (objectStores d !! "profiles") eqn:Hp; [|discriminate].
    injection Hs as <-.
    destruct store; cbn [store_id write_store read_store images profiles_store];
      rewrite lookup_insert_eq, lookup_insert_ne by discriminate;
      now rewrite ?Hi, ?Hp.
  - unfold get_opening, dbGet. rewrite Hopen. run. rewrite Hl.
    destruct (valid_key k); [|reflexivity].
    destruct k; try reflexivity.
    now destruct (read_store store v !! s).
Qed.

Lemma opening_agrees_witness :
  idb_version (mkIDB 2 {["images" := ∅; "profiles" := ∅]}) = DB_VERSION /\
  stores_of (mkIDB 2 {["images" := ∅; "profiles" := ∅]})
  = Some Sample.empty_db /\
  exists d1 v1,
    put_opening IMG_STORE "img_slot_1" Sample.portrait
      (mkIDB 2 {["images" := ∅; "profiles" := ∅]}) = Returns d1 /\
    dbPut IoDone IMG_STORE "img_slot_1" Sample.portrait Sample.empty_db
    = Returns v1 /\
    stores_of d1 = Some v1 /\ idb_version d1 = DB_VERSION.
Proof.
  split; [reflexivity|]. split; [reflexivity|].
  exact (proj1 (opening_agrees IMG_STORE "img_slot_1" JNull Sample.portrait
                  (mkIDB 2 {["images" := ∅; "profiles" := ∅]})
                  Sample.empty_db eq_refl eq_refl)).
Defined.

(** X3: the first [dbPut] on a browser whose database is missing or older
    creates it with both stores and stores the value: a [dbGet] of the key
    then returns it, and the records the stores had before stay, but for
    the one under the key. *)
Theorem first_put_creates_database (store : store_name) (key : string)
  (value : jsval) (d : IDBDatabase) :
  (idb_version d < DB_VERSION)%N ->
  exists d1,
    put_opening store key value d = Returns d1 /\
    idb_version d1 = DB_VERSION /\
    is_Some (stores_of d1) /\
    get_opening store (JStr key) d1 = Returns (value, d1) /\
    (forall name records k x,
       objectStores d !! name = Some records -> records !! k = Some x ->
       name <> store_id store \/ k <> key ->
       exists records',
         objectStores d1 !! name = Some records' /\ records' !! k = Some x).
Proof.
  intros Hlt. unfold put_opening, openDB.
  rewrite (proj2 (N.ltb_lt _ _) Hlt). run. cbn [objectStores idb_version].
  assert (Hstore : is_Some (objectStores (onupgradeneeded d) !! store_id store)).
  { rewrite upgrade_lookup.
    destruct (objectStores d !! store_id store); [eauto|].
    rewrite bool_decide_eq_true_2; [eauto|]. destruct store; auto. }
  destruct Hstore as [records0 Hrec]. rewrite Hrec.
  eexists. split; [reflexivity|]. cbn [idb_version]. split; [reflexivity|].
  split; [|split].
  - unfold stores_of. cbn [objectStores store_id].
    assert (Hi : is_Some (objectStores (onupgradeneeded d) !! "images")).
    { rewrite upgrade_lookup. destruct (objectStores d !! "images"); eauto. }
    assert (Hp : is_Some (objectStores (onupgradeneeded d) !! "profiles")).
    { rewrite upgrade_lookup. destruct (objectStores d !! "profiles"); eauto. }
    destruct Hi as [imgs Hi], Hp as [profs Hp].
    destruct store; cbn [store_id];
      rewrite ?lookup_insert_eq, ?lookup_insert_ne by discriminate;
      rewrite ?Hi, ?Hp; eauto.
  - unfold get_opening, openDB. cbn [idb_version objectStores].
    change (DB_VERSION <? DB_VERSION)%N with false. cbn iota. run.
    cbn [objectStores]. rewrite lookup_insert_eq. cbn [valid_key].
    now rewrite lookup_insert_eq.
  - intros name records k x Hname Hk Hother. cbn [objectStores].
    assert (Hup : objectStores (onupgradeneeded d) !! name = Some records).
    { now rewrite upgrade_lookup, Hname. }
    destruct (decide (name = store_id store)) as [->|Hne].
    + rewrite lookup_insert_eq. eexists. split; [reflexivity|].
      rewrite Hrec in Hup. injection Hup as ->.
      destruct Hother as [H|H]; [congruence|].
      now rewrite lookup_insert_ne by congruence.
    + rewrite lookup_insert_ne by congruence. eauto.
Qed.

Lemma first_put_creates_database_witness :
  (idb_version no_database < DB_VERSION)%N /\
  exists d1,
    put_opening PROFILE_STORE "allProfiles" Sample.registry1 no_database
    = Returns d1 /\
    idb_version d1 = DB_VERSION /\
    get_opening PROFILE_STORE (JStr "allProfiles") d1
    = Returns (Sample.registry1, d1).
Proof.
  split; [reflexivity|].
  destruct (first_put_creates_database PROFILE_STORE "allProfiles"
              Sample.registry1 no_database eq_refl)
    as (d1 & Hput & Hver & _ & Hget & _).
  exists d1. auto.
Defined.

(** ** One slot and the others *)

Section OtherKeys.

Implicit Types (o : list (string * jsval)) (k : string) (v : jsval).





End OtherKeys.

Lemma slot_key_inj (slot other : N) : slot <> other -> slot_key slot <> slot_key other.
Proof. unfold slot_key. intros Hne Heq. now apply pretty_N_inj in Heq. Qed.


(** What a save does to the world, whatever the storage answers. *)
Lemma saveSlot_cases (io : Storage) (now : timestamp) (slot : N) (w w' : World) :
  saveSlot io now (state w) slot w = Returns w' ->
  w' = flash "No image loaded" w \/
  w' = flash "Save failed" w \/
  w' = flash "Save failed"
         (with_db (mkDB (<[img_slot slot := imageData (state w)]> (images (db w)))
                     (profiles_store (db w))) w) \/
  exists sockets updated,
    array_spread (eyeSockets (state w)) = Returns sockets /\
    updated = JObj (set_prop (object_spread (profiles (state w))) (slot_key slot)
                      (make_profile slot sockets (locked (state w)) now)) /\
    w' = flash ("Scene saved to slot " +:+ pretty slot)
           (upd (setActiveSlot (Some slot))
              (upd (setProfiles updated)
                 (with_db
                    (mkDB (<[img_slot slot := imageData (state w)]> (images (db w)))
                       (<["allProfiles" := updated]> (profiles_store (db w))))
                    w))).
Proof.
  unfold saveSlot.
  destruct (truthy (imageData (state w))); cbn [negb]; [|intros [= <-]; auto].
  destruct (array_spread (eyeSockets (state w))) as [sockets|]; run;
    [|discriminate].
  unfold dbPut.
  destruct (put_image io); run; [|intros [= <-]; auto].
  destruct (put_profiles io); run; intros [= <-]; [|auto].
  right. right. right. eexists _, _. repeat split.
Qed.

(** A save of a scene with an image, when the storage completes both
    writes. *)
Lemma saveSlot_done (now : timestamp) (slot : N) (w : World) (pts : list jsval) :
  truthy (imageData (state w)) = true ->
  eyeSockets (state w) = JArr pts ->
  saveSlot storage_ok now (state w) slot w
  = Returns
      (flash ("Scene saved to slot " +:+ pretty slot)
         (upd (setActiveSlot (Some slot))
            (upd (setProfiles
                    (JObj (set_prop (object_spread (profiles (state w)))
                             (slot_key slot)
                             (make_profile slot pts (locked (state w)) now))))
               (with_db
                  (mkDB (<[img_slot slot := imageData (state w)]> (images (db w)))
                     (<["allProfiles" :=
                          JObj (set_prop (object_spread (profiles (state w)))
                                  (slot_key slot)
                                  (make_profile slot pts (locked (state w)) now))]>
                        (profiles_store (db w))))
                  w)))).
Proof.
  intros Hi Hs. unfold saveSlot. rewrite Hi, Hs. reflexivity.
Qed.



(** X5: saving to a slot that is occupied replaces its entry: the registry
    keeps the keys it had, in their order, and the entry of the slot is the
    new profile, with the new image under the key of the slot. *)
Theorem saveSlot_overwrites (now : timestamp) (slot : N) (w : World)
  (entries : list (string * jsval)) (pts : list jsval) :
  profiles (state w) = JObj entries ->
  has_key entries (slot_key slot) = true ->
  truthy (imageData (state w)) = true ->
  eyeSockets (state w) = JArr pts ->
  exists w' entries',
    saveSlot storage_ok now (state w) slot w = Returns w' /\
    profiles (state w') = JObj entries' /\
    profiles_store (db w') !! "allProfiles" = Some (JObj entries') /\
    map fst entries' = map fst entries /\
    assoc entries' (slot_key slot)
    = Some (make_profile slot pts (locked (state w)) now) /\
    images (db w') !! img_slot slot = Some (imageData (state w)).
Proof.
  intros Hreg Hkey Hi Hs. unfold saveSlot. rewrite Hi, Hs, Hreg.
  cbn [negb array_spread object_spread]. run.
  eexists _, _. split; [reflexivity|]. cbn.
  rewrite !lookup_insert_eq. repeat split.
  - unfold set_prop. rewrite Hkey. apply replace_prop_keys.
  - apply assoc_set_prop.
Qed.

Lemma saveSlot_overwrites_witness :
  profiles (state Session.saved1) = JObj [("1", Sample.profile_of 1)] /\
  has_key [("1", Sample.profile_of 1)] (slot_key 1) = true /\
  exists w' entries',
    saveSlot storage_ok "2025-02-06T08:30:00.000Z"
      (state (handleFileChange (Some Sample.other_url) Session.saved1)) 1
      (handleFileChange (Some Sample.other_url) Session.saved1) = Returns w' /\
    profiles (state w') = JObj entries' /\
    map fst entries' = ["1"] /\
    assoc entries' "1"
    = Some (make_profile 1 [] (JBool false) "2025-02-06T08:30:00.000Z") /\
    images (db w') !! "img_slot_1" = Some (JStr Sample.other_url).
Proof.
  split; [reflexivity|]. split; [reflexivity|].
  destruct (saveSlot_overwrites "2025-02-06T08:30:00.000Z" 1
              (handleFileChange (Some Sample.other_url) Session.saved1)
              [("1", Sample.profile_of 1)] [] eq_refl eq_refl eq_refl eq_refl)
    as (w' & entries' & Hsave & Hreg & _ & Hkeys & Hentry & Himg).
  exists w', entries'. auto.
Defined.

(** X6: whatever the storage answers, a save changes neither the image, the
    points, the lock, the glow, the hovered marker nor a drag in progress;
    and it changes the registry and the active slot only when it reports
    that the scene was saved. *)
Theorem saveSlot_keeps_scene (io : Storage) (now : timestamp) (slot : N)
  (w w' : World) :
  saveSlot io now (state w) slot w = Returns w' ->
  imageData (state w') = imageData (state w) /\
  eyeSockets (state w') = eyeSockets (state w) /\
  locked (state w') = locked (state w) /\
  glowIntensity (state w') = glowIntensity (state w) /\
  hoverSocket (state w') = hoverSocket (state w) /\
  draggingIdx (state w') = draggingIdx (state w) /\
  drag_listeners w' = drag_listeners w /\
  (statusMsg (state w') = "Scene saved to slot " +:+ pretty slot \/
   profiles (state w') = profiles (state w) /\
   activeSlot (state w') = activeSlot (state w) /\
   profiles_store (db w') = profiles_store (db w)).
Proof.
  intros Hsave. apply saveSlot_cases in Hsave.
  destruct Hsave as [->|[->|[->|(sockets & updated & _ & -> & ->)]]];
    cbn; repeat split; auto.
Qed.

Lemma saveSlot_keeps_scene_witness :
  saveSlot Session.failing_registry_write Sample.now (state Sample.editing) 2
    Sample.editing
  = Returns (Session.settled
               (saveSlot Session.failing_registry_write Sample.now
                  (state Sample.editing) 2 Sample.editing)) /\
  eyeSockets (state (Session.settled
                       (saveSlot Session.failing_registry_write Sample.now
                          (state Sample.editing) 2 Sample.editing)))
  = JArr [Sample.left_eye; Sample.right_eye].
Proof.
  split; [reflexivity|].
  exact (proj1 (proj2 (saveSlot_keeps_scene Session.failing_registry_write
                         Sample.now 2 Sample.editing _ eq_refl))).
Defined.

(** What a load does to the world. *)
Lemma loadSlot_cases (io : Storage) (slot : N) (w w' : World) :
  loadSlot io (state w) slot w = Returns w' ->
  w' = flash ("Slot " +:+ pretty slot +:+ " is empty") w \/
  w' = flash "Load failed" w \/
  w' = flash ("Image missing for slot " +:+ pretty slot) w \/
  exists profile key img sockets lock,
    get_prop (profiles (state w)) (slot_key slot) = Returns profile /\
    truthy profile = true /\
    get_prop profile "imageKey" = Returns key /\
    dbGet (get_image io) IMG_STORE key (db w) = Returns img /\
    truthy img = true /\
    get_prop profile "eyeSockets" = Returns sockets /\
    get_prop profile "locked" = Returns lock /\
    w' = flash ("Loaded slot " +:+ pretty slot)
           (upd (setActiveSlot (Some slot))
              (upd (setLocked (js_or lock (JBool false)))
                 (upd (setEyeSockets (js_or sockets (JArr [])))
                    (upd (setImageData img) w)))).
Proof.
  unfold loadSlot.
  destruct (get_prop (profiles (state w)) (slot_key slot)) as [profile|] eqn:Hp;
    run; [|discriminate].
  destruct (truthy profile) eqn:Ht; cbn [negb]; [|intros [= <-]; auto].
  destruct (get_prop profile "imageKey") as [key|] eqn:Hk; run;
    [|intros [= <-]; auto].
  destruct (dbGet (get_image io) IMG_STORE key (db w)) as [img|] eqn:Hg; run;
    [|intros [= <-]; auto].
  destruct (truthy img) eqn:Hi; run; [|intros [= <-]; auto].
  destruct (get_prop profile "eyeSockets") as [sockets|] eqn:Hs; run;
    [|intros [= <-]; auto].
  destruct (get_prop profile "locked") as [lock|] eqn:Hl; run;
    [|intros [= <-]; auto].
  intros [= <-]. right. right. right.
  eexists _, _, _, _, _. repeat split; eauto.
Qed.

(** X7: a load writes nothing to the database and leaves the registry, the
    glow, the hovered marker and a drag in progress as they were; it changes
    the scene only when it reports that the slot was loaded. *)
Theorem loadSlot_keeps_registry (io : Storage) (slot : N) (w w' : World) :
  loadSlot io (state w) slot w = Returns w' ->
  db w' = db w /\
  profiles (state w') = profiles (state w) /\
  glowIntensity (state w') = glowIntensity (state w) /\
  hoverSocket (state w') = hoverSocket (state w) /\
  draggingIdx (state w') = draggingIdx (state w) /\
  drag_listeners w' = drag_listeners w /\
  (statusMsg (state w') = "Loaded slot " +:+ pretty slot \/
   scene (state w') = scene (state w)).
Proof.
  intros Hload. apply loadSlot_cases in Hload.
  destruct Hload as [->|[->|[->|(p & k & i & s & l & _ & _ & _ & _ & _ & _ & _ & ->)]]];
    cbn; repeat split; auto.
Qed.

Lemma loadSlot_keeps_registry_witness :
  loadSlot storage_ok (state Session.saved1) 2 Session.saved1
  = Returns (flash "Slot 2 is empty" Session.saved1) /\
  db (flash "Slot 2 is empty" Session.saved1) = db Session.saved1 /\
  profiles (state (flash "Slot 2 is empty" Session.saved1))
  = profiles (state Session.saved1).
Proof.
  split; [reflexivity|].
  destruct (loadSlot_keeps_registry storage_ok 2 Session.saved1 _ eq_refl)
    as (Hdb & Hreg & _).
  split; [exact Hdb|exact Hreg].
Defined.

(** X8: when the image write succeeds and the registry write fails, the
    save reports ["Save failed"]: the image stays in the image store, but
    the registry, in the store and in the state, and the active slot are as
    before, so the slot is as occupied or as empty as it was. *)
Theorem failed_registry_write (io : Storage) (now : timestamp) (slot : N)
  (w : World) (pts : list jsval) :
  put_image io = IoDone ->
  put_profiles io = IoFails ->
  truthy (imageData (state w)) = true ->
  eyeSockets (state w) = JArr pts ->
  exists w',
    saveSlot io now (state w) slot w = Returns w' /\
    statusMsg (state w') = "Save failed" /\
    images (db w') !! img_slot slot = Some (imageData (state w)) /\
    profiles_store (db w') = profiles_store (db w) /\
    profiles (state w') = profiles (state w) /\
    activeSlot (state w') = activeSlot (state w) /\
    slot_occupied (state w') slot = slot_occupied (state w) slot.
Proof.
  intros Hput Hreg Hi Hs. unfold saveSlot, dbPut.
  rewrite Hi, Hs, Hput, Hreg. cbn [negb array_spread]. run.
  eexists. split; [reflexivity|]. cbn. rewrite lookup_insert_eq.
  repeat split.
Qed.

Lemma failed_registry_write_witness :
  put_image Session.failing_registry_write = IoDone /\
  put_profiles Session.failing_registry_write = IoFails /\
  truthy (imageData (state Sample.editing)) = true /\
  exists w',
    saveSlot Session.failing_registry_write Sample.now (state Sample.editing)
      2 Sample.editing = Returns w' /\
    statusMsg (state w') = "Save failed" /\
    images (db w') !! "img_slot_2" = Some Sample.portrait /\
    profiles (state w') = JObj [] /\
    slot_occupied (state w') 2 = Returns false.
Proof.
  split; [reflexivity|]. split; [reflexivity|]. split; [reflexivity|].
  destruct (failed_registry_write Session.failing_registry_write Sample.now 2
              Sample.editing [Sample.left_eye; Sample.right_eye]
              eq_refl eq_refl eq_refl eq_refl)
    as (w' & Hsave & Hmsg & Himg & _ & Hreg & _ & Hocc).
  exists w'. repeat split; assumption.
Defined.

(** ** The slot bar and the sessions *)

(** X9: the slot bar and [loadSlot] agree: a slot drawn as empty loads as
    ["Slot n is empty"] with nothing else changed, a slot drawn as occupied
    never does, and where drawing the slot throws, so does loading it. *)
Theorem slot_bar_agrees_with_load (io : Storage) (slot : N) (w : World) :
  match slot_occupied (state w) slot with
  | Returns false =>
      loadSlot io (state w) slot w
      = Returns (flash ("Slot " +:+ pretty slot +:+ " is empty") w)
  | Returns true =>
      exists w',
        loadSlot io (state w) slot w = Returns w' /\
        statusMsg (state w') <> "Slot " +:+ pretty slot +:+ " is empty"
  | Throws e => loadSlot io (state w) slot w = Throws e
  end.
Proof.
  unfold slot_occupied.
  destruct (get_prop (profiles (state w)) (slot_key slot)) as [profile|e] eqn:Hp;
    run; [|unfold loadSlot; now rewrite Hp].
  destruct (truthy profile) eqn:Ht.
  - unfold loadSlot. rewrite Hp. run. rewrite Ht. cbn [negb].
    eexists. split; [reflexivity|].
    destruct (get_prop profile "imageKey") as [key|]; run; [|discriminate].
    destruct (dbGet (get_image io) IMG_STORE key (db w)) as [img|]; run;
      [|discriminate].
    destruct (truthy img); [|discriminate].
    destruct (get_prop profile "eyeSockets"); run; [|discriminate].
    destruct (get_prop profile "locked"); run; discriminate.
  - unfold loadSlot. rewrite Hp. run. now rewrite Ht.
Qed.

(** X10: after a successful save the slot bar draws the slot as occupied and
    as the active one, and no other slot as active. *)
Theorem saved_slot_shows_occupied (now : timestamp) (slot : N) (w : World)
  (pts : list jsval) :
  truthy (imageData (state w)) = true ->
  eyeSockets (state w) = JArr pts ->
  exists w',
    saveSlot storage_ok now (state w) slot w = Returns w' /\
    slot_occupied (state w') slot = Returns true /\
    slot_active (state w') slot = true /\
    (forall other, other <> slot -> slot_active (state w') other = false).
Proof.
  intros Hi Hs. unfold saveSlot. rewrite Hi, Hs. cbn [negb array_spread]. run.
  eexists. split; [reflexivity|]. unfold slot_occupied, slot_active. cbn.
  rewrite assoc_set_prop. run. split; [reflexivity|].
  split; [now apply bool_decide_eq_true_2|].
  intros other Hne. apply bool_decide_eq_false_2. congruence.
Qed.

Lemma saved_slot_shows_occupied_witness :
  truthy (imageData (state Sample.editing)) = true /\
  exists w',
    saveSlot storage_ok Sample.now (state Sample.editing) 4 Sample.editing
    = Returns w' /\
    slot_occupied (state w') 4 = Returns true /\
    slot_active (state w') 4 = true.
Proof.
  split; [reflexivity|].
  destruct (saved_slot_shows_occupied Sample.now 4 Sample.editing
              [Sample.left_eye; Sample.right_eye] eq_refl eq_refl)
    as (w' & Hsave & Hocc & Hact & _).
  exists w'. auto.
Defined.

(** X11: a saved scene outlives the session: in a new session on the same
    browser, where the scene is blank and the registry read at mount
    succeeds, loading the slot gives back image, points and lock flag. *)
Theorem saved_scene_survives_reload (now : timestamp) (slot : N) (w : World)
  (pts : list jsval) (b : bool) :
  truthy (imageData (state w)) = true ->
  eyeSockets (state w) = JArr pts ->
  locked (state w) = JBool b ->
  exists w1 w2,
    saveSlot storage_ok now (state w) slot w = Returns w1 /\
    scene (state (reload IoDone w1)) = (JNull, JArr [], JBool false, None) /\
    profiles (state (reload IoDone w1)) = profiles (state w1) /\
    loadSlot storage_ok (state (reload IoDone w1)) slot (reload IoDone w1)
    = Returns w2 /\
    scene (state w2) = (imageData (state w), JArr pts, JBool b, Some slot).
Proof.
  intros Hi Hs Hl. unfold saveSlot. rewrite Hi, Hs, Hl.
  cbn [negb array_spread]. run.
  eexists _, _. split; [reflexivity|].
  unfold reload, load_profiles_on_mount, dbGet. cbn.
  rewrite lookup_insert_eq. run. cbn.
  split; [reflexivity|]. split; [reflexivity|].
  unfold loadSlot. cbn. rewrite assoc_set_prop. run. cbn. run.
  unfold dbGet. cbn. rewrite lookup_insert_eq. run. rewrite Hi. run.
  split; [reflexivity|]. unfold scene. cbn. now destruct b.
Qed.

Lemma saved_scene_survives_reload_witness :
  truthy (imageData (state Sample.locked_scene)) = true /\
  exists w1 w2,
    saveSlot storage_ok Sample.now (state Sample.locked_scene) 5
      Sample.locked_scene = Returns w1 /\
    loadSlot storage_ok (state (reload IoDone w1)) 5 (reload IoDone w1)
    = Returns w2 /\
    scene (state w2)
    = (Sample.portrait, JArr [Sample.left_eye; Sample.right_eye], JBool true,
       Some 5%N).
Proof.
  split; [reflexivity|].
  destruct (saved_scene_survives_reload Sample.now 5 Sample.locked_scene
              [Sample.left_eye; Sample.right_eye] true eq_refl eq_refl eq_refl)
    as (w1 & w2 & Hsave & _ & _ & Hload & Hscene).
  exists w1, w2. auto.
Defined.

(** X12: when the registry read at mount fails, the session starts with an
    empty registry although the store holds one; the next save then writes
    a registry with the saved slot alone over the stored one, so that every
    other slot is gone from the store. *)
Theorem failed_mount_read_loses_slots (now : timestamp) (slot : N)
  (url : string) (w : World) :
  url <> "" ->
  profiles (state (reload IoFails w)) = JObj [] /\
  db (reload IoFails w) = db w /\
  exists w',
    saveSlot storage_ok now
      (state (handleFileChange (Some url) (reload IoFails w))) slot
      (handleFileChange (Some url) (reload IoFails w)) = Returns w' /\
    profiles_store (db w') !! "allProfiles"
    = Some (JObj [(slot_key slot, make_profile slot [] (JBool false) now)]) /\
    (forall r other,
       profiles_store (db w') !! "allProfiles" = Some r ->
       other <> slot -> get_prop r (slot_key other) = Returns JUndefined).
Proof.
  intros Hurl. split; [reflexivity|]. split; [reflexivity|].
  assert (Ht : truthy (JStr url) = true).
  { cbn. apply negb_true_iff. now apply String.eqb_neq. }
  rewrite (saveSlot_done now slot
             (handleFileChange (Some url) (reload IoFails w)) [] Ht eq_refl).
  eexists. split; [reflexivity|].
  cbn [flash upd with_db db state profiles_store].
  rewrite lookup_insert_eq.
  assert (Hset : forall k v, set_prop [] k v = [(k, v)]).
  { intros k v. unfold set_prop. cbn. now destruct (array_index k). }
  change (profiles (state (handleFileChange (Some url) (reload IoFails w))))
    with (JObj []).
  change (locked (state (handleFileChange (Some url) (reload IoFails w))))
    with (JBool false).
  cbn [object_spread]. rewrite Hset. split; [reflexivity|].
  intros r other [= <-] Hne. rewrite get_prop_object. cbn [assoc].
  destruct (String.eqb (slot_key slot) (slot_key other)) eqn:E; [|reflexivity].
  apply String.eqb_eq in E. symmetry in E. now apply slot_key_inj in E.
Qed.

Lemma other_url_not_empty : Sample.other_url <> "".
Proof. discriminate. Qed.

Lemma failed_mount_read_loses_slots_witness :
  Sample.other_url <> "" /\
  profiles_store (db Session.saved13) !! "allProfiles"
  = Some (profiles (state Session.saved13)) /\
  get_prop (profiles (state Session.saved13)) (slot_key 3)
  = Returns (Sample.profile_of 3) /\
  exists w',
    saveSlot storage_ok Sample.now
      (state (handleFileChange (Some Sample.other_url)
                (reload IoFails Session.saved13))) 1
      (handleFileChange (Some Sample.other_url) (reload IoFails Session.saved13))
    = Returns w' /\
    (forall r,
       profiles_store (db w') !! "allProfiles" = Some r ->
       get_prop r (slot_key 3) = Returns JUndefined).
Proof.
  split; [discriminate|]. split; [reflexivity|]. split; [reflexivity|].
  destruct (failed_mount_read_loses_slots Sample.now 1 Sample.other_url
              Session.saved13 other_url_not_empty)
    as (_ & _ & w' & Hsave & _ & Hgone).
  exists w'. split; [exact Hsave|].
  intros r Hr. apply (Hgone r 3%N Hr). discriminate.
Defined.

(** ** Deleting, dragging and the keyboard *)

Lemma filter_index_past (j k : nat) (items : list jsval) :
  k < j -> filter_index j k items = items.
Proof.
  revert j. induction items as [|x items IH]; intros j Hlt; simpl;
    [reflexivity|].
  rewrite (proj2 (Nat.eqb_neq j k)) by lia. f_equal. apply IH. lia.
Qed.

Lemma filter_index_from (i n : nat) (items : list jsval) :
  filter_index i (i + n) items = take n items ++ drop (S n) items.
Proof.
  revert i n. induction items as [|x items IH]; intros i n; simpl.
  - now destruct n.
  - destruct n as [|n].
    + rewrite Nat.add_0_r, Nat.eqb_refl. simpl. rewrite drop_0.
      apply filter_index_past. lia.
    + rewrite (proj2 (Nat.eqb_neq i (i + S n))) by lia. simpl. f_equal.
      replace (i + S n) with (S i + n) by lia. apply IH.
Qed.

(** [filter] by index is the list without that element. *)
Lemma filter_index_delete (idx : nat) (items : list jsval) :
  filter_index 0 idx items = take idx items ++ drop (S idx) items.
Proof. exact (filter_index_from 0 idx items). Qed.

(** X13: on an unlocked scene the Delete or Backspace key, the pointer being
    over marker [idx], removes that marker and no other: the markers before
    it keep their index, those after it move down by one, a marker index
    beyond the list removes nothing; the hovered marker is reset. *)
Theorem delete_key_removes_hovered (io : Storage) (now : timestamp)
  (e : KeyboardEvent) (w : World) (items : list jsval) (idx : nat) :
  code e = "Delete" \/ code e = "Backspace" ->
  key e = code e ->
  truthy (locked (state w)) = false ->
  hoverSocket (state w) = Some idx ->
  eyeSockets (state w) = JArr items ->
  exists items',
    handleKeyDown io now e w
    = Returns (upd (setHoverSocket None) (upd (setEyeSockets (JArr items')) w)) /\
    (forall j, j < idx -> items' !! j = items !! j) /\
    (forall j, idx <= j -> items' !! j = items !! S j) /\
    (idx < length items -> S (length items') = length items) /\
    (length items <= idx -> items' = items).
Proof.
  intros Hcode Hkey Hl Hh Hs.
  exists (take idx items ++ drop (S idx) items). split; [|split; [|split; [|split]]].
  - unfold handleKeyDown, delete_hovered, slot_hotkey. rewrite Hkey.
    destruct Hcode as [-> | ->]; cbn [String.eqb Ascii.eqb Bool.eqb andb orb negb
      String.leb String.compare Ascii.compare];
      rewrite Hh, Hl; cbn [negb andb]; rewrite Hs; cbn [remove_at]; run;
      rewrite filter_index_delete; reflexivity.
  - intros j Hj. destruct (decide (idx <= length items)) as [Hle|Hgt].
    + rewrite lookup_app_l by (rewrite length_take; lia).
      now apply lookup_take_lt.
    + now rewrite take_ge, drop_ge, app_nil_r by lia.
  - intros j Hj. destruct (decide (idx <= length items)) as [Hle|Hgt].
    + rewrite lookup_app_r; rewrite length_take, Nat.min_l by lia; [|lia].
      rewrite lookup_drop. f_equal. lia.
    + rewrite take_ge, drop_ge, app_nil_r by lia.
      rewrite !lookup_ge_None_2 by lia. reflexivity.
  - intros Hlt. rewrite length_app, length_take, length_drop. lia.
  - intros Hge. now rewrite take_ge, drop_ge, app_nil_r by lia.
Qed.

Lemma delete_key_removes_hovered_witness :
  (code Sample.delete_key = "Delete" \/ code Sample.delete_key = "Backspace") /\
  hoverSocket (state Session.hovering_first) = Some 0 /\
  eyeSockets (state Session.hovering_first)
  = JArr [Sample.left_eye; Sample.right_eye] /\
  handleKeyDown storage_ok Sample.now Sample.delete_key Session.hovering_first
  = Returns (upd (setHoverSocket None)
               (upd (setEyeSockets (JArr [Sample.right_eye]))
                  Session.hovering_first)).
Proof.
  split; [left; reflexivity|]. split; [reflexivity|]. split; [reflexivity|].
  destruct (delete_key_removes_hovered storage_ok Sample.now Sample.delete_key
              Session.hovering_first [Sample.left_eye; Sample.right_eye] 0
              (or_introl eq_refl) eq_refl eq_refl eq_refl eq_refl)
    as (items' & Hrun & _ & Hafter & Hlen & _).
  rewrite Hrun. do 3 f_equal.
  assert (Hsize : S (length items') = 2) by (apply Hlen; cbn; lia).
  destruct items' as [|p [|q items']]; try discriminate Hsize.
  specialize (Hafter 0 (le_n 0)). cbn in Hafter. now injection Hafter as ->.
Defined.

(** X14: a press on marker [idx] of an unlocked scene starts a drag: until
    the release, a click on the portrait places nothing, and a [mousemove]
    puts that marker at the pointer position clamped to [0,1], leaving the
    other markers as they are. *)
Theorem drag_moves_its_marker (idx : nat) (e me : MouseEvent)
  (rect : DOMRect) (w : World) (items : list jsval) (old : jsval) :
  truthy (locked (state w)) = false ->
  drag_listeners w = [] ->
  eyeSockets (state w) = JArr items ->
  items !! idx = Some old ->
  is_nan (div (sub (clientX me) (left rect)) (width rect)) = false ->
  is_nan (div (sub (clientY me) (top rect)) (height rect)) = false ->
  draggingIdx (state (handleSocketMouseDown idx w)) = Some idx /\
  handleImageClick e rect (handleSocketMouseDown idx w)
  = Returns (handleSocketMouseDown idx w) /\
  exists w' items' x y,
    window_mousemove me rect (handleSocketMouseDown idx w) = Returns w' /\
    eyeSockets (state w') = JArr items' /\
    items' !! idx = Some (point x y) /\
    x = clamp_to_unit (div (sub (clientX me) (left rect)) (width rect)) /\
    y = clamp_to_unit (div (sub (clientY me) (top rect)) (height rect)) /\
    in_unit x = true /\ in_unit y = true /\
    length items' = length items /\
    (forall j, j <> idx -> items' !! j = items !! j).
Proof.
  intros Hl Hnone Hs Hidx Hx Hy.
  unfold handleSocketMouseDown. rewrite Hl, Hnone. cbn [app].
  split; [reflexivity|]. split.
  - unfold handleImageClick. cbn. rewrite Hl. cbn.
    destruct (truthy (imageData (state w))); reflexivity.
  - unfold window_mousemove. cbn [drag_listeners with_listeners run_moves].
    destruct (handleMove_keeps_unit idx me rect
                (with_listeners [idx] (upd (setDraggingIdx (Some idx)) w))
                items old Hs Hidx Hx Hy)
      as (w' & items' & x & y & Hmove & Heye & Hat & -> & -> & Hxu & Hyu & Hrest).
    exists w', items'. eexists _, _. rewrite Hmove. run.
    do 7 (split; [first [reflexivity | eassumption]|]). split; [|exact Hrest].
    rewrite (handleMove_stores_clamped idx me rect
               (with_listeners [idx] (upd (setDraggingIdx (Some idx)) w))
               items Hs) in Hmove.
    injection Hmove as <-. cbn in Heye. injection Heye as <-.
    apply length_imap.
Qed.

Lemma drag_moves_its_marker_witness :
  truthy (locked (state Sample.editing)) = false /\
  drag_listeners Sample.editing = [] /\
  exists w' items',
    window_mousemove (mkMouse (of_Z 2000) (of_Z 20)) Sample.plain_rect
      (handleSocketMouseDown 1 Sample.editing) = Returns w' /\
    eyeSockets (state w') = JArr items' /\
    items' !! 1 = Some (point one zero) /\
    items' !! 0 = Some Sample.left_eye.
Proof.
  split; [reflexivity|]. split; [reflexivity|].
  destruct (drag_moves_its_marker 1 Sample.click_inside
              (mkMouse (of_Z 2000) (of_Z 20)) Sample.plain_rect Sample.editing
              [Sample.left_eye; Sample.right_eye] Sample.right_eye
              eq_refl eq_refl eq_refl eq_refl eq_refl eq_refl)
    as (_ & _ & w' & items' & x & y & Hmove & Heye & Hat & -> & -> & _ & _ & _ & Hrest).
  exists w', items'. split; [exact Hmove|]. split; [exact Heye|].
  split; [exact Hat|]. now rewrite (Hrest 0) by discriminate.
Defined.

Lemma handleUp_fold (listeners : list nat) (w : World) :
  drag_listeners w = listeners ->
  drag_listeners (fold_left (fun w' idx => handleUp idx w') listeners w) = [] /\
  (listeners <> [] ->
   draggingIdx
     (state (fold_left (fun w' idx => handleUp idx w') listeners w)) = None) /\
  db (fold_left (fun w' idx => handleUp idx w') listeners w) = db w /\
  setDraggingIdx None
    (state (fold_left (fun w' idx => handleUp idx w') listeners w))
  = setDraggingIdx None (state w).
Proof.
  revert w. induction listeners as [|idx rest IH]; intros w Hl; cbn [fold_left].
  - repeat split; auto. now destruct 1.
  - destruct (IH (handleUp idx w)) as (Hnil & Hdrag & Hdb & Hst).
    { unfold handleUp. cbn. rewrite Hl. cbn. now rewrite Nat.eqb_refl. }
    split; [exact Hnil|]. split; [|split; [exact Hdb|exact Hst]].
    intros _. destruct rest as [|idx' rest]; [reflexivity|].
    apply Hdrag. discriminate.
Qed.

(** X15: a release ends every drag, however many presses are pending: no
    listener stays on [window], no marker is being dragged, a later
    [mousemove] changes nothing, and the release itself changes nothing
    else. *)
Theorem mouseup_ends_every_drag (me : MouseEvent) (rect : DOMRect) (w : World) :
  drag_listeners (window_mouseup w) = [] /\
  (drag_listeners w <> [] -> draggingIdx (state (window_mouseup w)) = None) /\
  window_mousemove me rect (window_mouseup w) = Returns (window_mouseup w) /\
  db (window_mouseup w) = db w /\
  setDraggingIdx None (state (window_mouseup w)) = setDraggingIdx None (state w).
Proof.
  destruct (handleUp_fold (drag_listeners w) w eq_refl)
    as (Hnil & Hdrag & Hdb & Hst).
  unfold window_mouseup, window_mousemove. rewrite Hnil.
  repeat split; auto.
Qed.

(** X16: a digit key acts on the slot it names. For a key of one character
    and a key code other than Space, Backspace and Delete, [handleKeyDown]
    does nothing unless the character is one of the digits 1 to 6 and the
    event is no repeat; then it saves the scene to that slot when Shift is
    held, and loads that slot otherwise. *)
Theorem digit_key_addresses_its_slot (io : Storage) (now : timestamp)
  (e : KeyboardEvent) (w : World) (c : ascii) :
  key e = String c EmptyString ->
  String.eqb (code e) "Space" = false ->
  String.eqb (code e) "Backspace" = false ->
  String.eqb (code e) "Delete" = false ->
  handleKeyDown io now e w =
    match digit_of c with
    | Some d =>
        if (1 <=? d)%N && (d <=? 6)%N && negb (repeat e) then
          if shiftKey e then saveSlot io now (state w) d w
          else loadSlot io (state w) d w
        else Returns w
    | None => Returns w
    end.
Proof.
  intros Hkey Hspace Hback Hdel.
  unfold handleKeyDown, delete_hovered, slot_hotkey.
  rewrite Hkey, Hspace, Hback, Hdel. cbn [andb orb].
  destruct (hoverSocket (state w)); run;
    destruct (repeat e); cbn [negb];
    rewrite ?andb_false_r, ?andb_true_r;
    destruct c as [[] [] [] [] [] [] [] []]; reflexivity.
Qed.

Lemma digit_key_addresses_its_slot_witness :
  key (Session.digit_key "3" true) = String "3" EmptyString /\
  handleKeyDown storage_ok Sample.now (Session.digit_key "3" true)
    Sample.editing
  = saveSlot storage_ok Sample.now (state Sample.editing) 3 Sample.editing /\
  handleKeyDown storage_ok Sample.now (Session.digit_key "7" true)
    Sample.editing = Returns Sample.editing.
Proof.
  split; [reflexivity|]. split.
  - exact (digit_key_addresses_its_slot storage_ok Sample.now
             (Session.digit_key "3" true) Sample.editing "3"
             eq_refl eq_refl eq_refl eq_refl).
  - exact (digit_key_addresses_its_slot storage_ok Sample.now
             (Session.digit_key "7" true) Sample.editing "7"
             eq_refl eq_refl eq_refl eq_refl).
Defined.

(** ** Sessions *)

Section PropertyOrigin.

Variables (k : string) (v : jsval).

Lemma In_replace_prop o kv :
  In kv (replace_prop o k v) -> kv = (k, v) \/ In kv o.
Proof.
  induction o as [|[k' v'] o IH]; simpl; [tauto|].
  destruct (String.eqb k' k) eqn:E; simpl.
  - apply String.eqb_eq in E. subst k'.
    intros [<-|H]; [now left|right; now right].
  - intros [<-|H]; [right; now left|]. destruct (IH H); [now left|].
    right; now right.
Qed.

Lemma In_insert_index o n kv :
  In kv (insert_index o n k v) -> kv = (k, v) \/ In kv o.
Proof.
  induction o as [|[k' v'] o IH]; simpl; [intuition auto|].
  destruct (array_index k') as [m|]; [destruct (m <? n)%N|]; simpl;
    intuition auto.
Qed.

Lemma In_set_prop o kv : In kv (set_prop o k v) -> kv = (k, v) \/ In kv o.
Proof.
  unfold set_prop. destruct (has_key o k).
  - apply In_replace_prop.
  - destruct (array_index k); [apply In_insert_index|].
    rewrite in_app_iff. simpl. intuition auto.
Qed.

End PropertyOrigin.

(** Storing a further image keeps the entries saved so far. *)
Lemma saved_entry_grows (d d' : DB) (kv : string * jsval) :
  (forall key img, images d !! key = Some img -> truthy img = true ->
     exists img', images d' !! key = Some img' /\ truthy img' = true) ->
  saved_entry d kv -> saved_entry d' kv.
Proof.
  intros Hgrow (slot & pts & lock & savedAt & img & Hk & Hp & Hi & Ht).
  destruct (Hgrow _ _ Hi Ht) as (img' & Hi' & Ht').
  now exists slot, pts, lock, savedAt, img'.
Qed.

Lemma saved_registry_grows (d d' : DB) (r : jsval) :
  (forall key img, images d !! key = Some img -> truthy img = true ->
     exists img', images d' !! key = Some img' /\ truthy img' = true) ->
  saved_registry d r -> saved_registry d' r.
Proof.
  intros Hgrow (entries & -> & Hall). exists entries. split; [reflexivity|].
  eapply Forall_impl; [exact Hall|]. intros kv. now apply saved_entry_grows.
Qed.

Lemma put_image_grows (key : string) (img : jsval) (d : DB) :
  truthy img = true ->
  forall key' img', images d !! key' = Some img' -> truthy img' = true ->
    exists img'', <[key := img]> (images d) !! key' = Some img'' /\
                  truthy img'' = true.
Proof.
  intros Ht key' img' Hi Ht'. destruct (decide (key = key')) as [->|Hne].
  - rewrite lookup_insert_eq. eauto.
  - rewrite lookup_insert_ne by exact Hne. eauto.
Qed.

(** Handlers that leave points, registry and database alone keep the
    invariant. *)
Lemma sound_same (w w' : World) :
  eyeSockets (state w') = eyeSockets (state w) ->
  profiles (state w') = profiles (state w) ->
  db w' = db w ->
  sound w -> sound w'.
Proof. unfold sound. now intros -> -> ->. Qed.

Lemma sound_points (items : list jsval) (w : World) :
  sound w -> sound (upd (setEyeSockets (JArr items)) w).
Proof. intros (_ & Hp & Hs). split; [now exists items|]. now split. Qed.

Lemma saveSlot_sound (io : Storage) (now : timestamp) (snap : State) (slot : N)
  (w : World) :
  (exists items, eyeSockets snap = JArr items) ->
  profiles snap = profiles (state w) ->
  sound w ->
  exists w', saveSlot io now snap slot w = Returns w' /\ sound w'.
Proof.
  intros [items Hs] Hsnap Hw. unfold saveSlot.
  destruct (truthy (imageData snap)) eqn:Hi; cbn [negb].
  2:{ eexists. split; [reflexivity|]. now apply (sound_same w). }
  rewrite Hs. cbn [array_spread]. run. eexists. split; [reflexivity|].
  unfold dbPut. destruct (put_image io); run;
    [|now apply (sound_same w)].
  pose proof (put_image_grows (img_slot slot) (imageData snap) (db w) Hi)
    as Hgrow.
  destruct Hw as (Hpts & Hreg & Hstored).
  destruct (put_profiles io); run.
  - destruct Hreg as (entries & Hentries & Hall).
    assert (Hnew : saved_registry
                     (mkDB (<[img_slot slot := imageData snap]> (images (db w)))
                        (<["allProfiles" :=
                             JObj (set_prop (object_spread (profiles snap))
                                     (slot_key slot)
                                     (make_profile slot items (locked snap) now))]>
                           (profiles_store (db w))))
                     (JObj (set_prop (object_spread (profiles snap))
                              (slot_key slot)
                              (make_profile slot items (locked snap) now)))).
    { eexists. split; [reflexivity|]. rewrite Hsnap, Hentries.
      cbn [object_spread]. apply List.Forall_forall. intros kv Hin.
      apply In_set_prop in Hin as [->|Hin].
      - exists slot, items, (locked snap), now, (imageData snap).
        cbn [images fst snd]. rewrite lookup_insert_eq. auto.
      - rewrite List.Forall_forall in Hall.
        eapply saved_entry_grows; [|apply Hall, Hin]. exact Hgrow. }
    split; [exact Hpts|]. split; [exact Hnew|].
    cbn [flash upd with_db db state profiles_store read_store write_store].
    intros r. rewrite lookup_insert_eq. now intros [= <-].
  - split; [exact Hpts|]. split.
    + eapply saved_registry_grows; [|exact Hreg]. exact Hgrow.
    + intros r Hr. eapply saved_registry_grows; [|exact (Hstored r Hr)].
      exact Hgrow.
Qed.

(** In a registry made of saved entries, the entry under the key of a slot
    is the profile of that slot, and its image is stored. *)
Lemma saved_registry_lookup (d : DB) (entries : list (string * jsval))
  (slot : N) (p : jsval) :
  Forall (saved_entry d) entries ->
  assoc entries (slot_key slot) = Some p ->
  exists pts lock savedAt img,
    p = make_profile slot pts lock savedAt /\
    images d !! img_slot slot = Some img /\ truthy img = true.
Proof.
  intros Hall Hp. apply assoc_In in Hp. rewrite List.Forall_forall in Hall.
  destruct (Hall _ Hp) as (slot' & pts & lock & savedAt & img & Hk & Hv & Hi & Ht).
  cbn [fst snd] in Hk, Hv. unfold slot_key in Hk.
  apply pretty_N_inj in Hk. subst slot'.
  now exists pts, lock, savedAt, img.
Qed.

Lemma made_profile_fields (slot : N) (pts : list jsval) (lock : jsval)
  (savedAt : timestamp) :
  get_prop (make_profile slot pts lock savedAt) "imageKey"
  = Returns (JStr (img_slot slot)) /\
  get_prop (make_profile slot pts lock savedAt) "eyeSockets"
  = Returns (JArr pts) /\
  get_prop (make_profile slot pts lock savedAt) "locked" = Returns lock.
Proof. repeat split. Qed.

Lemma loadSlot_sound (io : Storage) (snap : State) (slot : N) (w : World) :
  profiles snap = profiles (state w) ->
  sound w ->
  exists w', loadSlot io snap slot w = Returns w' /\ sound w'.
Proof.
  intros Hsnap Hw. pose proof Hw as (_ & (entries & Hentries & Hall) & _).
  unfold loadSlot. rewrite Hsnap, Hentries, get_prop_object. run.
  destruct (assoc entries (slot_key slot)) as [p|] eqn:Hp.
  2:{ cbn. eexists. split; [reflexivity|]. now apply (sound_same w). }
  destruct (saved_registry_lookup _ _ _ _ Hall Hp)
    as (pts & lock & savedAt & img & -> & Hi & Ht).
  cbn [truthy make_profile negb]. eexists. split; [reflexivity|].
  destruct (made_profile_fields slot pts lock savedAt) as (-> & -> & ->). run.
  unfold dbGet. destruct (get_image io); run;
    [|now apply (sound_same w)].
  cbn [valid_key read_store]. rewrite Hi. run. rewrite Ht. run.
  apply (sound_same (upd (setEyeSockets (JArr pts)) w));
    try reflexivity.
  now apply sound_points.
Qed.

Lemma handleImageClick_sound (e : MouseEvent) (rect : DOMRect) (w : World) :
  sound w -> exists w', handleImageClick e rect w = Returns w' /\ sound w'.
Proof.
  intros Hw. unfold handleImageClick.
  destruct (truthy (locked (state w)) || negb (truthy (imageData (state w))));
    [now exists w|].
  destruct (bool_decide (draggingIdx (state w) ≠ None)); [now exists w|].
  pose proof Hw as ([items Hitems] & _). rewrite Hitems.
  cbn [array_spread]. run. eexists. split; [reflexivity|].
  now apply sound_points.
Qed.

Lemma run_moves_sound (listeners : list nat) (me : MouseEvent) (rect : DOMRect)
  (w : World) :
  sound w -> exists w', run_moves listeners me rect w = Returns w' /\ sound w'.
Proof.
  revert w. induction listeners as [|idx rest IH]; intros w Hw;
    cbn [run_moves]; [now exists w|].
  pose proof Hw as ([items Hitems] & _).
  rewrite (handleMove_stores_clamped idx me rect w items Hitems). run.
  apply IH. now apply sound_points.
Qed.

Lemma window_mouseup_same (w : World) :
  eyeSockets (state (window_mouseup w)) = eyeSockets (state w) /\
  profiles (state (window_mouseup w)) = profiles (state w) /\
  db (window_mouseup w) = db w.
Proof.
  destruct (handleUp_fold (drag_listeners w) w eq_refl) as (_ & _ & Hdb & Hst).
  fold (window_mouseup w) in Hdb, Hst.
  split; [|split; [|exact Hdb]].
  - exact (f_equal eyeSockets Hst).
  - exact (f_equal profiles Hst).
Qed.

Lemma handleKeyDown_sound (io : Storage) (now : timestamp) (e : KeyboardEvent)
  (w : World) :
  sound w -> exists w', handleKeyDown io now e w = Returns w' /\ sound w'.
Proof.
  intros Hw. pose proof Hw as ([items Hitems] & _). unfold handleKeyDown.
  set (w1 := if String.eqb (code e) "Space" && negb (repeat e)
             then upd (setGlowIntensity one) w else w).
  assert (H1 : sound w1 /\ eyeSockets (state w1) = JArr items /\
               profiles (state w1) = profiles (state w)).
  { subst w1. destruct (String.eqb (code e) "Space" && negb (repeat e));
      (split; [|split; [exact Hitems|reflexivity]]); [|exact Hw].
    now apply (sound_same w). }
  destruct H1 as (Hw1 & Hitems1 & Hprofiles1).
  assert (H2 : exists w2, delete_hovered (state w) e w1 = Returns w2 /\
                          sound w2 /\
                          profiles (state w2) = profiles (state w)).
  { unfold delete_hovered. destruct (hoverSocket (state w)); [|now exists w1].
    destruct ((String.eqb (code e) "Backspace" || String.eqb (code e) "Delete")
              && negb (truthy (locked (state w)))); [|now exists w1].
    rewrite Hitems1. cbn [remove_at]. run. eexists. split; [reflexivity|].
    split; [|exact Hprofiles1].
    apply (sound_same (upd (setEyeSockets (JArr (filter_index 0 n items))) w1));
      try reflexivity.
    now apply sound_points. }
  destruct H2 as (w2 & -> & Hw2 & Hprofiles2). run. unfold slot_hotkey.
  destruct (String.leb "1" (key e) && String.leb (key e) "6" && negb (repeat e));
    [|now exists w2].
  destruct (parseInt (key e)) as [slot|]; [|now exists w2].
  destruct (shiftKey e).
  - apply saveSlot_sound; [now exists items|now symmetry|exact Hw2].
  - apply loadSlot_sound; [now symmetry|exact Hw2].
Qed.

Lemma reload_sound (io : io_result) (w : World) : sound w -> sound (reload io w).
Proof.
  intros (_ & _ & Hstored).
  assert (Hstart : sound (mkWorld initial_state (db w) [])).
  { split; [now exists []|]. split; [|exact Hstored].
    exists []. split; [reflexivity|]. constructor. }
  unfold reload, load_profiles_on_mount, dbGet.
  destruct io; [|exact Hstart]. cbn [valid_key db read_store].
  destruct (profiles_store (db w) !! "allProfiles") as [r|] eqn:Hr; run;
    [|exact Hstart].
  destruct (Hstored r eq_refl) as (entries & -> & Hall). cbn [truthy].
  split; [now exists []|]. split; [now exists entries|].
  cbn [upd db]. now rewrite Hr.
Qed.

(** X17: a session that never imports a registry never throws. From a world
    where the points are a list and every registry entry, in the state and
    in the store, is one that [saveSlot] wrote with its image stored, every
    sequence of events without an import runs to its end, whatever the
    storage answers, and ends in such a world again. *)
Theorem session_without_import_never_throws (events : list Event) (w : World) :
  sound w ->
  forallb (fun ev => negb (is_import ev)) events = true ->
  exists w', run events w = Returns w' /\ sound w'.
Proof.
  revert w. induction events as [|ev rest IH]; intros w Hw Hev;
    cbn [run]; [now exists w|].
  cbn [forallb] in Hev. apply andb_true_iff in Hev as [Hnot Hrest].
  assert (Hstep : exists w1, handle ev w = Returns w1 /\ sound w1).
  { destruct ev as [file|e rect|idx| |idx|me rect| |io now e|e|io slot| |
                    |io file|io]; cbn [handle].
    - eexists. split; [reflexivity|]. destruct file as [url|]; [|exact Hw].
      apply (sound_same (upd (setEyeSockets (JArr [])) w)); try reflexivity.
      now apply sound_points.
    - now apply handleImageClick_sound.
    - eexists. split; [reflexivity|]. now apply (sound_same w).
    - eexists. split; [reflexivity|]. now apply (sound_same w).
    - eexists. split; [reflexivity|]. unfold handleSocketMouseDown.
      destruct (truthy (locked (state w))); [exact Hw|].
      now apply (sound_same w).
    - now apply run_moves_sound.
    - eexists. split; [reflexivity|].
      destruct (window_mouseup_same w) as (H1 & H2 & H3).
      now apply (sound_same w).
    - now apply handleKeyDown_sound.
    - eexists. split; [reflexivity|]. unfold handleKeyUp.
      destruct (String.eqb (code e) "Space"); [|exact Hw].
      now apply (sound_same w).
    - now apply loadSlot_sound.
    - eexists. split; [reflexivity|]. now apply (sound_same w).
    - eexists. split; [reflexivity|]. now apply (sound_same w).
    - destruct file as [text|]; [discriminate Hnot|]. now exists w.
    - eexists. split; [reflexivity|]. now apply reload_sound. }
  destruct Hstep as (w1 & -> & Hw1). run. now apply IH.
Qed.

Lemma fresh_is_sound : sound Sample.fresh.
Proof.
  split; [now exists []|]. split.
  - exists []. split; [reflexivity|]. constructor.
  - intros r Hr. cbn in Hr. now rewrite lookup_empty in Hr.
Qed.

Lemma session_without_import_never_throws_witness :
  sound Sample.fresh /\
  exists w', run Session.editing_session Sample.fresh = Returns w' /\ sound w'.
Proof.
  split; [exact fresh_is_sound|].
  exact (session_without_import_never_throws Session.editing_session
           Sample.fresh fresh_is_sound eq_refl).
Defined.

(** X18: where nothing was imported, an occupied slot loads. In such a
    world, when the read of the image completes, the entry of an occupied
    slot is a profile of that slot, its image is in the image store, and
    [loadSlot] shows that image with the points and the lock flag of the
    profile; ["Image missing"] and ["Load failed"] are not reported. *)
Theorem occupied_slot_loads (io : Storage) (slot : N) (w : World) :
  sound w ->
  get_image io = IoDone ->
  slot_occupied (state w) slot = Returns true ->
  exists pts lock savedAt img,
    get_prop (profiles (state w)) (slot_key slot)
    = Returns (make_profile slot pts lock savedAt) /\
    images (db w) !! img_slot slot = Some img /\ truthy img = true /\
    loadSlot io (state w) slot w
    = Returns
        (flash ("Loaded slot " +:+ pretty slot)
           (upd (setActiveSlot (Some slot))
              (upd (setLocked (js_or lock (JBool false)))
                 (upd (setEyeSockets (JArr pts))
                    (upd (setImageData img) w))))).
Proof.
  intros (_ & (entries & Hentries & Hall) & _) Hio.
  unfold slot_occupied, loadSlot. rewrite Hentries, get_prop_object. run.
  destruct (assoc entries (slot_key slot)) as [p|] eqn:Hp; [|discriminate].
  intros _.
  destruct (saved_registry_lookup _ _ _ _ Hall Hp)
    as (pts & lock & savedAt & img & -> & Hi & Ht).
  exists pts, lock, savedAt, img. split; [reflexivity|].
  split; [exact Hi|]. split; [exact Ht|].
  cbn [truthy make_profile negb].
  destruct (made_profile_fields slot pts lock savedAt) as (-> & -> & ->). run.
  unfold dbGet. rewrite Hio. cbn [valid_key read_store]. rewrite Hi. run.
  rewrite Ht. run. reflexivity.
Qed.

Lemma occupied_slot_loads_witness :
  sound Session.saved13 /\
  slot_occupied (state Session.saved13) 3 = Returns true /\
  exists w',
    loadSlot storage_ok (state Session.saved13) 3 Session.saved13 = Returns w' /\
    statusMsg (state w') = "Loaded slot 3" /\
    imageData (state w') = Sample.portrait.
Proof.
  assert (Hsound : sound Session.saved13).
  { destruct (saveSlot_sound storage_ok Sample.now (state Sample.locked_scene) 1
                Sample.locked_scene) as (w1 & H1 & Hw1).
    - now eexists.
    - reflexivity.
    - split; [now eexists|]. split.
      + exists []. split; [reflexivity|]. constructor.
      + intros r Hr. cbn in Hr. now rewrite lookup_empty in Hr.
    - destruct (saveSlot_sound storage_ok Sample.now (state Session.saved1) 3
                  Session.saved1) as (w3 & H3 & Hw3).
      + now eexists.
      + reflexivity.
      + unfold Session.saved1. rewrite H1. exact Hw1.
      + unfold Session.saved13. rewrite H3. exact Hw3. }
  split; [exact Hsound|]. split; [reflexivity|].
  destruct (occupied_slot_loads storage_ok 3 Session.saved13 Hsound eq_refl
              eq_refl) as (pts & lock & savedAt & img & Hp & Hi & Ht & Hload).
  eexists. split; [exact Hload|]. split; [reflexivity|].
  cbn in Hi. vm_compute in Hi. now injection Hi as <-.
Defined.

(** ** What the handlers do to the storage *)

(** Handlers that leave the registry alone, in the state and in the store,
    keep it mirrored. *)
Lemma mirrored_same (w w' : World) :
  profiles (state w') = profiles (state w) ->
  profiles_store (db w') = profiles_store (db w) ->
  mirrored w -> mirrored w'.
Proof. unfold mirrored, stored_registry. now intros -> ->. Qed.

Lemma handleImageClick_footprint (e : MouseEvent) (rect : DOMRect)
  (w w' : World) :
  handleImageClick e rect w = Returns w' ->
  profiles (state w') = profiles (state w) /\ db w' = db w.
Proof.
  unfold handleImageClick.
  destruct (truthy (locked (state w)) || negb (truthy (imageData (state w))));
    [now intros [= <-]|].
  destruct (bool_decide (draggingIdx (state w) ≠ None)); [now intros [= <-]|].
  destruct (array_spread (eyeSockets (state w))); run; [|discriminate].
  now intros [= <-].
Qed.

Lemma run_moves_footprint (listeners : list nat) (me : MouseEvent)
  (rect : DOMRect) (w w' : World) :
  run_moves listeners me rect w = Returns w' ->
  profiles (state w') = profiles (state w) /\ db w' = db w.
Proof.
  revert w. induction listeners as [|idx rest IH]; intros w; cbn [run_moves].
  - now intros [= <-].
  - unfold handleMove.
    destruct (replace_at idx _ (eyeSockets (state w))) as [sockets|]; run;
      [|discriminate].
    intros Hrest. apply IH in Hrest as [-> ->]. now split.
Qed.

Lemma loadSlot_footprint (io : Storage) (snap : State) (slot : N)
  (w w' : World) :
  loadSlot io snap slot w = Returns w' ->
  profiles (state w') = profiles (state w) /\ db w' = db w.
Proof.
  unfold loadSlot.
  destruct (get_prop (profiles snap) (slot_key slot)) as [profile|]; run;
    [|discriminate].
  destruct (truthy profile); cbn [negb]; [|now intros [= <-]].
  destruct (get_prop profile "imageKey") as [key|]; run; [|now intros [= <-]].
  destruct (dbGet (get_image io) IMG_STORE key (db w)) as [img|]; run;
    [|now intros [= <-]].
  destruct (truthy img); run; [|now intros [= <-]].
  destruct (get_prop profile "eyeSockets"); run; [|now intros [= <-]].
  destruct (get_prop profile "locked"); run; now intros [= <-].
Qed.

(** A save writes at most the image of its slot to the image store, and
    changes the registry in the state only together with the stored one. *)
Lemma saveSlot_footprint (io : Storage) (now : timestamp) (snap : State)
  (slot : N) (w w' : World) :
  profiles snap = profiles (state w) ->
  saveSlot io now snap slot w = Returns w' ->
  (images (db w') = images (db w) \/
   images (db w') = <[img_slot slot := imageData snap]> (images (db w))) /\
  (mirrored w -> mirrored w').
Proof.
  intros Hsnap. unfold saveSlot.
  destruct (truthy (imageData snap)); cbn [negb].
  2:{ intros [= <-]. split; [now left|]. now apply mirrored_same. }
  destruct (array_spread (eyeSockets snap)) as [sockets|]; run; [|discriminate].
  unfold dbPut. destruct (put_image io); run.
  2:{ intros [= <-]. split; [now left|]. now apply mirrored_same. }
  destruct (put_profiles io); run; intros [= <-]; (split; [now right|]).
  - intros _. left. cbn. now rewrite lookup_insert_eq.
  - now apply mirrored_same.
Qed.

Lemma handleKeyDown_footprint (io : Storage) (now : timestamp)
  (e : KeyboardEvent) (w w' : World) :
  handleKeyDown io now e w = Returns w' ->
  (images (db w') = images (db w) \/
   exists slot img, images (db w') = <[img_slot slot := img]> (images (db w))) /\
  (mirrored w -> mirrored w').
Proof.
  unfold handleKeyDown.
  set (w1 := if String.eqb (code e) "Space" && negb (repeat e)
             then upd (setGlowIntensity one) w else w).
  assert (H1 : profiles (state w1) = profiles (state w) /\ db w1 = db w).
  { subst w1. now destruct (String.eqb (code e) "Space" && negb (repeat e)). }
  destruct H1 as [Hp1 Hd1].
  destruct (delete_hovered (state w) e w1) as [w2|] eqn:Hdel; run;
    [|discriminate].
  apply delete_hovered_frame in Hdel as (Hd2 & Hp2 & _).
  rewrite Hp1 in Hp2. rewrite Hd1 in Hd2.
  assert (Hsame : mirrored w -> mirrored w2).
  { apply mirrored_same; [exact Hp2|now rewrite Hd2]. }
  unfold slot_hotkey.
  destruct (String.leb "1" (key e) && String.leb (key e) "6" && negb (repeat e));
    [|intros [= <-]; rewrite Hd2; split; [now left|exact Hsame]].
  destruct (parseInt (key e)) as [slot|];
    [|intros [= <-]; rewrite Hd2; split; [now left|exact Hsame]].
  destruct (shiftKey e).
  - intros Hsave. apply saveSlot_footprint in Hsave as [Himg Hm];
      [|now symmetry].
    rewrite Hd2 in Himg. split; [|now auto].
    destruct Himg as [->| ->]; [now left|right; eauto].
  - intros Hload. apply loadSlot_footprint in Hload as [Hp3 Hd3].
    rewrite Hd3, Hd2. split; [now left|]. intros Hm.
    apply (mirrored_same w2); [exact Hp3|now rewrite Hd3|now apply Hsame].
Qed.

Lemma importProfiles_footprint (io : io_result) (file : option file_text)
  (w : World) :
  images (db (importProfiles io file w)) = images (db w) /\
  (mirrored w -> mirrored (importProfiles io file w)).
Proof.
  destruct file as [text|]; [|now split]. unfold importProfiles.
  destruct (JSON_parse text) as [data|]; run;
    [|split; [reflexivity|now apply mirrored_same]].
  destruct io; cbn [dbPut]; run;
    [|split; [reflexivity|now apply mirrored_same]].
  split; [reflexivity|]. intros _. left. cbn. now rewrite lookup_insert_eq.
Qed.

(** A session that could read the stored registry starts mirrored. *)
Lemma reload_mirrored (w : World) : mirrored (reload IoDone w).
Proof.
  unfold reload, load_profiles_on_mount, dbGet, mirrored, stored_registry.
  cbn [valid_key db read_store].
  destruct (profiles_store (db w) !! "allProfiles") as [r|] eqn:Hr; run.
  - destruct (truthy r) eqn:Ht; cbn; rewrite Hr; [now left|right].
    now split.
  - cbn. rewrite Hr. now right.
Qed.

Lemma reload_db (io : io_result) (w : World) : db (reload io w) = db w.
Proof.
  unfold reload, load_profiles_on_mount, dbGet. destruct io; [|reflexivity].
  cbn [valid_key db read_store].
  destruct (profiles_store (db w) !! "allProfiles") as [r|]; run;
    [|reflexivity].
  now destruct (truthy r).
Qed.

(** What one event does to the image store and to the registry. *)
Lemma handle_footprint (ev : Event) (w w' : World) :
  handle ev w = Returns w' ->
  (images (db w') = images (db w) \/
   exists slot img, images (db w') = <[img_slot slot := img]> (images (db w))) /\
  (mount_read_fails ev = false -> mirrored w -> mirrored w').
Proof.
  destruct ev as [file|e rect|idx| |idx|me rect| |io now e|e|io slot| |
                  |io file|io]; cbn [handle mount_read_fails].
  - intros [= <-]. destruct file; (split; [now left|]); intros _;
      now apply mirrored_same.
  - intros [Hp Hd]%handleImageClick_footprint. rewrite Hd.
    split; [now left|]. intros _. apply mirrored_same; [exact Hp|now rewrite Hd].
  - intros [= <-]. split; [now left|]. intros _. now apply mirrored_same.
  - intros [= <-]. split; [now left|]. intros _. now apply mirrored_same.
  - intros [= <-]. unfold handleSocketMouseDown.
    destruct (truthy (locked (state w))); (split; [now left|]); intros _;
      now apply mirrored_same.
  - intros [Hp Hd]%run_moves_footprint. rewrite Hd.
    split; [now left|]. intros _. apply mirrored_same; [exact Hp|now rewrite Hd].
  - intros [= <-]. destruct (window_mouseup_same w) as (_ & Hp & Hd).
    rewrite Hd. split; [now left|]. intros _.
    apply mirrored_same; [exact Hp|now rewrite Hd].
  - intros [Himg Hm]%handleKeyDown_footprint. split; [exact Himg|now auto].
  - intros [= <-]. unfold handleKeyUp.
    destruct (String.eqb (code e) "Space"); (split; [now left|]); intros _;
      now apply mirrored_same.
  - intros [Hp Hd]%loadSlot_footprint. rewrite Hd.
    split; [now left|]. intros _. apply mirrored_same; [exact Hp|now rewrite Hd].
  - intros [= <-]. split; [now left|]. intros _. now apply mirrored_same.
  - intros [= <-]. split; [now left|]. intros _. now apply mirrored_same.
  - intros [= <-]. destruct (importProfiles_footprint io file w) as [Hi Hm].
    split; [now left|now auto].
  - intros [= <-]. split; [left; now rewrite reload_db|].
    destruct io; [|discriminate]. intros _ _. apply reload_mirrored.
Qed.

(** X19: the registry that the slot bar shows is the stored one. Unless a
    read of the registry at mount fails, every session keeps the registry of
    the state equal to the stored one (or empty, where nothing or a falsy
    value is stored): failed writes, of a save or of an import, change
    neither. So a new session shows the same registry again. *)
Theorem registry_is_the_stored_one (events : list Event) (w w' : World) :
  mirrored w ->
  forallb (fun ev => negb (mount_read_fails ev)) events = true ->
  run events w = Returns w' ->
  mirrored w' /\
  profiles (state (reload IoDone w')) = js_or (profiles (state w')) (JObj []).
Proof.
  intros Hw Hev Hrun.
  assert (Hm : mirrored w').
  { revert w Hw Hev Hrun. induction events as [|ev rest IH];
      intros w Hw Hev; cbn [run]; [now intros [= <-]|].
    cbn [forallb] in Hev. apply andb_true_iff in Hev as [Hok Hrest].
    apply negb_true_iff in Hok.
    destruct (handle ev w) as [w1|] eqn:Hstep; run; [|discriminate].
    apply IH; [|exact Hrest].
    now apply (proj2 (handle_footprint ev w w1 Hstep)). }
  split; [exact Hm|].
  unfold reload, load_profiles_on_mount, dbGet. cbn [valid_key db read_store].
  destruct Hm as [Hs|[Hs Hp]].
  - rewrite Hs. run. unfold js_or.
    now destruct (truthy (profiles (state w'))).
  - rewrite Hp. unfold stored_registry in Hs.
    destruct (profiles_store (db w') !! "allProfiles") as [r|]; run;
      [|reflexivity].
    cbn in Hs. now rewrite Hs.
Qed.

Lemma registry_is_the_stored_one_witness :
  mirrored Sample.fresh /\
  mirrored (Session.settled (run Session.import_session Sample.fresh)) /\
  profiles
    (state (reload IoDone
              (Session.settled (run Session.import_session Sample.fresh))))
  = json_value Sample.stray_document.
Proof.
  assert (Hfresh : mirrored Sample.fresh).
  { right. split; reflexivity. }
  split; [exact Hfresh|].
  destruct (registry_is_the_stored_one Session.import_session Sample.fresh
              (Session.settled (run Session.import_session Sample.fresh))
              Hfresh eq_refl) as [Hm Hr].
  - vm_compute. reflexivity.
  - split; [exact Hm|]. rewrite Hr. vm_compute. reflexivity.
Defined.

(** X20: no handler deletes a stored image or writes one under another key
    than [img_slot_n]: after any session, every image that was stored still
    has a value under its key, and every key of the image store was there
    before or is the image key of a slot. *)
Theorem stored_images_are_never_deleted (events : list Event) (w w' : World) :
  run events w = Returns w' ->
  forall key,
    (is_Some (images (db w) !! key) -> is_Some (images (db w') !! key)) /\
    (is_Some (images (db w') !! key) ->
     is_Some (images (db w) !! key) \/ exists slot, key = img_slot slot).
Proof.
  revert w. induction events as [|ev rest IH]; intros w; cbn [run].
  - intros [= <-] key. split; auto.
  - destruct (handle ev w) as [w1|] eqn:Hstep; run; [|discriminate].
    intros Hrest key. destruct (IH w1 Hrest key) as [Hkeep Hnew].
    destruct (handle_footprint ev w w1 Hstep) as [[Hsame|(slot & img & Hput)] _].
    + rewrite Hsame in *. now split.
    + rewrite Hput in *. split.
      * intros Hkey. apply Hkeep.
        destruct (decide (img_slot slot = key)) as [->|Hne].
        -- rewrite lookup_insert_eq. eauto.
        -- now rewrite lookup_insert_ne.
      * intros Hkey. destruct (Hnew Hkey) as [Hold|Hslot]; [|now right].
        destruct (decide (img_slot slot = key)) as [<-|Hne]; [right; eauto|].
        left. now rewrite lookup_insert_ne in Hold.
Qed.

Lemma stored_images_are_never_deleted_witness :
  run Session.import_session Session.saved13
  = Returns (Session.settled (run Session.import_session Session.saved13)) /\
  is_Some (images
             (db (Session.settled (run Session.import_session Session.saved13)))
           !! "img_slot_3").
Proof.
  assert (Hrun : run Session.import_session Session.saved13
                 = Returns (Session.settled
                              (run Session.import_session Session.saved13))).
  { vm_compute. reflexivity. }
  split; [exact Hrun|].
  apply (stored_images_are_never_deleted _ _ _ Hrun "img_slot_3").
  vm_compute. eauto.
Defined.

(** ** Imported registries *)

Lemma get_prop_returns (v : jsval) (k : string) :
  v <> JUndefined -> v <> JNull -> exists x, get_prop v k = Returns x.
Proof.
  destruct v as [| |b|n|s|items|props]; cbn [get_prop]; try congruence;
    intros _ _; eauto.
  - destruct (String.eqb k "length"); [eauto|].
    destruct (array_index k); eauto.
  - destruct (String.eqb k "length"); [eauto|].
    destruct (array_index k); eauto.
  - destruct (assoc props k); eauto.
Qed.

(** X21: of all JSON documents only [null] makes the slot bar throw. The
    import stores the value of any document as the registry; when the
    document is [null], drawing a slot and loading one throw a [TypeError],
    and a new session starts with an empty registry, since the stored
    [null] is falsy; for every other document the slot bar can be drawn. *)
Theorem only_null_breaks_the_slot_bar (doc : json) (slot : N) (w : World) :
  let w1 := importProfiles IoDone (Some (JsonText doc)) w in
  profiles (state w1) = json_value doc /\
  match doc with
  | JsonNull =>
      slot_occupied (state w1) slot = Throws TypeError /\
      (forall io, loadSlot io (state w1) slot w1 = Throws TypeError) /\
      profiles (state (reload IoDone w1)) = JObj [] /\
      slot_occupied (state (reload IoDone w1)) slot = Returns false
  | _ => exists b, slot_occupied (state w1) slot = Returns b
  end.
Proof.
  cbn zeta. split; [reflexivity|].
  assert (Hdraw : json_value doc <> JNull ->
                  exists b,
                    slot_occupied
                      (state (importProfiles IoDone (Some (JsonText doc)) w))
                      slot = Returns b).
  { intros Hnull. unfold slot_occupied.
    change (profiles (state (importProfiles IoDone (Some (JsonText doc)) w)))
      with (json_value doc).
    destruct (get_prop_returns (json_value doc) (slot_key slot)) as [x ->];
      [now destruct doc|exact Hnull|].
    run. eauto. }
  destruct doc; try (apply Hdraw; discriminate).
  split; [reflexivity|]. split; [reflexivity|].
  unfold reload, load_profiles_on_mount, dbGet. cbn. rewrite lookup_insert_eq.
  now split.
Qed.

(** In a valid registry the entry of an occupied slot names the image key
    of that slot. *)
Lemma valid_registry_image_key (r p : jsval) (slot : N) :
  valid_registry r = true ->
  get_prop r (slot_key slot) = Returns p -> truthy p = true ->
  get_prop p "imageKey" = Returns (JStr (img_slot slot)).
Proof.
  destruct r as [| |?|?|?|?|entries]; try discriminate.
  intros [Hentries _]%andb_true_iff. rewrite get_prop_object.
  destruct (assoc entries (slot_key slot)) as [p'|] eqn:Hp;
    [|intros [= <-]; discriminate].
  intros [= ->] _. apply assoc_In in Hp. rewrite forallb_forall in Hentries.
  specialize (Hentries _ Hp). unfold registry_entry in Hentries.
  cbn [fst snd] in Hentries.
  destruct (array_index (slot_key slot)) as [n|] eqn:Hn; [|discriminate].
  apply array_index_canonical in Hn. unfold slot_key in Hn.
  apply pretty_N_inj in Hn. subst n.
  apply andb_true_iff in Hentries as [_ Hvalid].
  destruct p as [| |?|?|?|?|f]; try discriminate.
  cbn [valid_profile] in Hvalid.
  do 3 (apply andb_true_iff in Hvalid as [Hvalid _]).
  apply andb_true_iff in Hvalid as [Hvalid Hkey].
  do 2 (apply andb_true_iff in Hvalid as [Hvalid _]).
  apply has_key_assoc in Hkey as [x Hx]. rewrite get_prop_object, Hx.
  rewrite forallb_forall in Hvalid.
  specialize (Hvalid _ (assoc_In _ _ _ Hx)). cbn in Hvalid.
  destruct x; try discriminate. apply String.eqb_eq in Hvalid. now subst.
Qed.

(** X22: an exported registry does not carry its images. When the registry
    of one browser is valid and is exported, and the file is imported on a
    browser whose image store has no image for a slot that is occupied in
    it, the slot is drawn as occupied there and loading it reports
    ["Image missing for slot n"], with the scene as it was. *)
Theorem exported_registry_lacks_images (io : Storage) (slot : N)
  (a b : World) :
  valid_registry (profiles (state a)) = true ->
  slot_occupied (state a) slot = Returns true ->
  images (db b) !! img_slot slot = None ->
  get_image io = IoDone ->
  let b1 := importProfiles IoDone (Some (fst (exportProfiles a))) b in
  profiles (state b1) = profiles (state a) /\
  slot_occupied (state b1) slot = Returns true /\
  loadSlot io (state b1) slot b1
  = Returns (flash ("Image missing for slot " +:+ pretty slot) b1).
Proof.
  intros Hvalid Hocc Hnone Hio. cbn zeta.
  unfold exportProfiles, importProfiles. cbn [fst].
  rewrite (stringify_text_parse _ (valid_registry_safe _ Hvalid)). run.
  cbn [dbPut]. run.
  split; [reflexivity|]. split; [exact Hocc|].
  unfold slot_occupied in Hocc.
  destruct (get_prop (profiles (state a)) (slot_key slot)) as [p|] eqn:Hp;
    [|discriminate]. rewrite bind_Returns in Hocc.
  injection Hocc as Ht.
  pose proof (valid_registry_image_key _ _ _ Hvalid Hp Ht) as Hkey.
  unfold loadSlot.
  cbn [flash upd with_db state db profiles setProfiles setStatusMsg].
  rewrite Hp. run. rewrite Ht. cbn [negb]. rewrite Hkey. run.
  unfold dbGet. rewrite Hio. cbn [valid_key read_store write_store images].
  rewrite Hnone. run. reflexivity.
Qed.

Lemma exported_registry_lacks_images_witness :
  valid_registry (profiles (state (Sample.with_registry Sample.registry6)))
  = true /\
  loadSlot storage_ok
    (state (importProfiles IoDone
              (Some (fst (exportProfiles
                            (Sample.with_registry Sample.registry6))))
              Sample.fresh)) 4
    (importProfiles IoDone
       (Some (fst (exportProfiles (Sample.with_registry Sample.registry6))))
       Sample.fresh)
  = Returns
      (flash "Image missing for slot 4"
         (importProfiles IoDone
            (Some (fst (exportProfiles
                          (Sample.with_registry Sample.registry6))))
            Sample.fresh)).
Proof.
  assert (Hvalid : valid_registry
                     (profiles (state (Sample.with_registry Sample.registry6)))
                   = true) by (vm_compute; reflexivity).
  split; [exact Hvalid|].
  exact (proj2 (proj2 (exported_registry_lacks_images storage_ok 4
                         (Sample.with_registry Sample.registry6) Sample.fresh
                         Hvalid eq_refl eq_refl eq_refl))).
Defined.

(** ** The glow key *)

(** X23: the space bar moves the glow and nothing else. A [keydown] of the
    space bar, in any lock state and with or without a hovered marker, sets
    the glow to 1, or leaves it where it is when the event is a key repeat;
    it saves, loads and deletes nothing. The [keyup] sets the glow to 0, so
    after press and release the component is as it was, but for the glow. *)
Theorem space_bar_moves_only_the_glow (io : Storage) (now : timestamp)
  (e : KeyboardEvent) (w : World) :
  code e = "Space" -> key e = " " ->
  exists w',
    handleKeyDown io now e w = Returns w' /\
    glowIntensity (state w')
    = (if repeat e then glowIntensity (state w) else one) /\
    handleKeyUp e w' = upd (setGlowIntensity zero) w.
Proof.
  intros Hcode Hkey. unfold handleKeyDown, delete_hovered, slot_hotkey, handleKeyUp.
  rewrite Hcode, Hkey.
  change (String.eqb "Space" "Space") with true.
  change (String.eqb "Space" "Backspace" || String.eqb "Space" "Delete")
    with false.
  change (String.leb "1" " ") with false. cbn [andb].
  destruct (hoverSocket (state w)); run;
    (eexists; split; [reflexivity|]);
    destruct (repeat e); cbn [negb]; split; reflexivity.
Qed.

Lemma space_bar_moves_only_the_glow_witness :
  code (mkKey "Space" " " false false) = "Space" /\
  exists w',
    handleKeyDown storage_ok Sample.now (mkKey "Space" " " false false)
      Session.hovering_first = Returns w' /\
    glowIntensity (state w') = one /\
    handleKeyUp (mkKey "Space" " " false false) w'
    = upd (setGlowIntensity zero) Session.hovering_first.
Proof.
  split; [reflexivity|].
  exact (space_bar_moves_only_the_glow storage_ok Sample.now
           (mkKey "Space" " " false false) Session.hovering_first
           eq_refl eq_refl).
Defined.

(** ** Saving keeps the registry valid *)

Lemma saveSlot_keeps_registry_valid_witness :
  valid_registry (profiles (state (Sample.with_registry Sample.registry1)))
  = true /\
  exists w',
    saveSlot storage_ok Sample.now
      (state (Sample.with_registry Sample.registry1)) 2
      (Sample.with_registry Sample.registry1) = Returns w' /\
    valid_registry (profiles (state w')) = true.
Proof.
  assert (Hvalid : valid_registry
                     (profiles (state (Sample.with_registry Sample.registry1)))
                   = true) by (vm_compute; reflexivity).
  assert (Hslot : (1 <= 2 <= 6)%N) by lia.
  assert (Hpts : forallb valid_point [Sample.left_eye; Sample.right_eye] = true)
    by (vm_compute; reflexivity).
  split; [exact Hvalid|].
  destruct (saveSlot_keeps_registry_valid Sample.now 2
              (Sample.with_registry Sample.registry1)
              [Sample.left_eye; Sample.right_eye] false
              Hvalid Hslot eq_refl eq_refl Hpts eq_refl)
    as (w' & Hsave & Hreg & _).
  exists w'. split; [exact Hsave|exact Hreg].
Defined.

(** ** Points that are no list *)




